(** * ossimShorelineUtil: a shallow embedding of [src/util/ossimShorelineUtil.cpp]

    The shoreline utility assembles an image-processing chain (equation
    combiner, band LUT remapper, gaussian smoother, edge filter) from a
    keyword list, answers chip requests through that chain and, after the
    raster product is written, hands it to the potrace plugin.

    Conventions of the embedding:
    - [double] and [float] quantities are exact rationals ([Q]); comparisons
      on them are stated with [==], [<=], [<];
    - [ossim_uint8] is a [Z] in [0, 256);
    - [ossimKeywordlist] (a [std::map] of strings) is a [gmap string string];
    - a C++ exception is the [Throw] branch of [Result];
    - classes of the library whose code is not part of this translation unit
      (ossimString, ossimFilename, ossimChipProcUtil, ossimUtilityRegistry,
      ossimImageGeometry, ossimImageChain) are interfaces: type classes whose
      methods the model calls and whose instances a caller supplies. *)

From Stdlib Require Import ZArith QArith Lia Lqa String Ascii List Bool DecimalString.
From stdpp Require Import gmap strings.
Import ListNotations.
Open Scope string_scope.

(** ** Scalars *)

(** [FLT_EPSILON] of <cfloat>: 2^-23 for IEEE single precision. *)
Definition FLT_EPSILON : Q := 1 # 8388608.

(** ** Keyword lists *)

Abbreviation ossimKeywordlist := (gmap string string).

Module Kwl.

(** [ossimKeywordlist::add(key, value)]: the default overwrites. *)
Definition add (key value : string) (kwl : gmap string string)
  : gmap string string :=
  <[key := value]> kwl.

(** [ossimKeywordlist::findKey(key)]: the value, or the empty string when
    the key is absent.  [find(key)] returns a null [const char*] in that
    case, which [ossimString] turns into the empty string as well. *)
Definition findKey (kwl : gmap string string) (key : string) : string :=
  default "" (kwl !! key).

Definition find := findKey.

End Kwl.

(** The keyword names of the translation unit, and those it takes from
    ossimKeywordNames (the last three; the model needs them as keys only). *)
Definition COLOR_CODING_KW := "color_coding".
Definition SMOOTHING_KW := "smoothing".
Definition THRESHOLD_KW := "threshold".
Definition TOLERANCE_KW := "tolerance".
Definition ALGORITHM_KW := "algorithm".
Definition DO_EDGE_DETECT_KW := "do_edge_detect".
Definition DUMMY_OUTPUT_FILENAME := "@@NEVER_USE_THIS@@".
Definition TEMP_RASTER_PRODUCT_FILENAME := "temp_shoreline.tif".
Definition SENSOR_ID_KW := "sensor_id".
Definition OUTPUT_FILE_KW := "output_file".
Definition IMAGE_FILE_KW := "image_file".

(** ** Exceptions *)

(** Every [throw ossimException(xmsg.str())] of the file, by the place it
    is raised at and the values streamed into its message.  [BaseException]
    stands for whatever the base class throws. *)
Inductive ossimException : Type :=
| BadKeywordValue (line : Z) (keyword : string)
| UnexpectedValueCount (line : Z) (keyword : string)
| NaNsInAoi (line : Z)
| SensorNotSupported (line : Z) (sensor : string)
| TooFewInputImages (line : Z) (expected found : nat)
| BaseException (what : string).

Inductive Result (A : Type) : Type :=
| Ok (a : A)
| Throw (e : ossimException).
Arguments Ok {A} a.
Arguments Throw {A} e.

Definition bind {A B} (r : Result A) (k : A -> Result B) : Result B :=
  match r with
  | Ok a => k a
  | Throw e => Throw e
  end.

Notation "'try!' x := r 'in' k" := (bind r (fun x => k))
  (at level 10, x name, r at level 100, k at level 200).

(** ** Interfaces of the absent library classes *)

(** The conversions of ossimString that the utility calls. *)
Class ossimStringOps : Type := {
  (** [ossimString::toDouble()] *)
  toDouble : string -> Q;
  (** [ossimString::toUInt8()] *)
  toUInt8 : string -> Z;
  (** [ossimString::toBool()] *)
  toBool : string -> bool;
  (** [ossimString::toString(ossim_float64)] *)
  toStringF64 : Q -> string;
  (** [ossimString::toString(ossim_uint8)] *)
  toStringU8 : Z -> string;
  (** [ossimString::split(separators)] *)
  split : string -> string -> list string;
  (** [ossimFilename::appendTimestamp()] *)
  appendTimestamp : string -> string;
  (** [ossimFilename::setExtension(ext)] *)
  setExtension : string -> string -> string
}.

(** [ossimKeywordlist::getBoolKeywordValue(rtn, key)]: [rtn] is overwritten
    only when the key is present. *)
Definition getBoolKeywordValue `{ossimStringOps}
    (kwl : gmap string string) (rtn : bool) (key : string) : bool :=
  match kwl !! key with
  | Some v => toBool v
  | None => rtn
  end.

(** ** Objects of the processing chain *)

Inductive AlgorithmId : Type := NDWI | AWEI.

Inductive ossimScalarType : Type := OSSIM_UINT8 | OSSIM_FLOAT.

(** An element of [m_imgLayers] (a reference-counted image chain), by its
    handle. *)
Inductive ImageLayer : Type := layer (id : nat).

(** What [initProcessingChain] and [initLandsat8] add to [m_procChain], each
    with the settings the code gives it before the [add]. *)
Inductive ChainSource : Type :=
| EquationCombiner (inputs : list ImageLayer)
                   (outputScalarType : ossimScalarType) (equation : string)
| BandLutFilter (state : gmap string string)
| ImageGaussianFilter (gaussStd : Q)
| EdgeFilter (filterType : string).

(** [ossimIrect]: integer corners; [OSSIM_INT_NAN] marks an undefined
    coordinate. *)
Definition OSSIM_INT_NAN : Z := - 2 ^ 31.

Record ossimIrect : Type := {
  ul_x : Z; ul_y : Z; lr_x : Z; lr_y : Z
}.

Definition irect_hasNans (r : ossimIrect) : bool :=
  (ul_x r =? OSSIM_INT_NAN)%Z || (ul_y r =? OSSIM_INT_NAN)%Z ||
  (lr_x r =? OSSIM_INT_NAN)%Z || (lr_y r =? OSSIM_INT_NAN)%Z.

(** [ossimIrect::size()] *)
Definition irect_size (r : ossimIrect) : Z * Z :=
  (lr_x r - ul_x r + 1, lr_y r - ul_y r + 1)%Z.

(** [ossimGrect]: ground corners; [None] is NaN. *)
Record ossimGrect : Type := {
  ul_lat : option Q; ul_lon : option Q; lr_lat : option Q; lr_lon : option Q
}.

Definition isnan (o : option Q) : bool :=
  match o with Some _ => false | None => true end.

Definition grect_hasNans (r : ossimGrect) : bool :=
  isnan (ul_lat r) || isnan (ul_lon r) || isnan (lr_lat r) || isnan (lr_lon r).

(** [ossimImageGeometry], as far as the utility touches it: the image size,
    which [setImageSize] overwrites, and the projection behind
    [localToWorld], by its handle. *)
Record ossimImageGeometry : Type := {
  geom_projection : nat;
  geom_imageSize : Z * Z
}.

Definition setImageSize (size : Z * Z) (g : ossimImageGeometry)
  : ossimImageGeometry :=
  {| geom_projection := geom_projection g; geom_imageSize := size |}.

(** [ossimImageData]: the pixel buffer of a tile, byte by byte. *)
Definition ossimImageData : Type := list Z.

(** ** The utility object

    The members of [ossimShorelineUtil], followed by those it inherits from
    [ossimChipProcUtil] and uses in this file.  [m_geom] is a reference
    that may be null. *)
Record ossimShorelineUtil : Type := {
  m_waterValue : Z;
  m_marginalValue : Z;
  m_landValue : Z;
  m_sensor : string;
  m_threshold : Q;
  m_tolerance : Q;
  m_algorithm : AlgorithmId;
  m_skipThreshold : bool;
  m_smoothing : Q;
  m_doEdgeDetect : bool;
  m_vectorFilename : string;
  m_productFilename : string;
  m_kwl : gmap string string;
  m_imgLayers : list ImageLayer;
  m_procChain : list ChainSource;
  m_geom : option ossimImageGeometry;
  m_aoiViewRect : ossimIrect;
  m_aoiGroundRect : ossimGrect;
  m_consoleStream : nat
}.

(** The constructor: the member initialisers, over the state the base class
    constructor leaves ([base]). *)
Definition construct (base : ossimShorelineUtil) : ossimShorelineUtil :=
  {| m_waterValue := 255;
     m_marginalValue := 128;
     m_landValue := 0;
     m_sensor := "ls8";
     m_threshold := 55 # 100;
     m_tolerance := 1 # 100;
     m_algorithm := NDWI;
     m_skipThreshold := false;
     m_smoothing := 2 # 10;
     m_doEdgeDetect := false;
     m_vectorFilename := m_vectorFilename base;
     m_productFilename := m_productFilename base;
     m_kwl := m_kwl base;
     m_imgLayers := m_imgLayers base;
     m_procChain := m_procChain base;
     m_geom := m_geom base;
     m_aoiViewRect := m_aoiViewRect base;
     m_aoiGroundRect := m_aoiGroundRect base;
     m_consoleStream := m_consoleStream base |}.

(** [m_procChain->add(source)]: the new source takes the output of the
    sources added before it; the list is kept in processing order. *)
Definition chain_add (src : ChainSource) (u : ossimShorelineUtil)
  : ossimShorelineUtil :=
  {| m_waterValue := m_waterValue u;
     m_marginalValue := m_marginalValue u;
     m_landValue := m_landValue u;
     m_sensor := m_sensor u;
     m_threshold := m_threshold u;
     m_tolerance := m_tolerance u;
     m_algorithm := m_algorithm u;
     m_skipThreshold := m_skipThreshold u;
     m_smoothing := m_smoothing u;
     m_doEdgeDetect := m_doEdgeDetect u;
     m_vectorFilename := m_vectorFilename u;
     m_productFilename := m_productFilename u;
     m_kwl := m_kwl u;
     m_imgLayers := m_imgLayers u;
     m_procChain := m_procChain u ++ [src];
     m_geom := m_geom u;
     m_aoiViewRect := m_aoiViewRect u;
     m_aoiGroundRect := m_aoiGroundRect u;
     m_consoleStream := m_consoleStream u |}.

(** ** The world outside the object *)

Inductive ossimNotifyLevel : Type :=
| ossimNotifyLevel_INFO | ossimNotifyLevel_WARN | ossimNotifyLevel_FATAL.

(** Files on disk (name to content) and what was sent to [ossimNotify]. *)
Record World : Type := {
  files : gmap string (list Z);
  notifications : list (ossimNotifyLevel * string)
}.

Definition ossimNotify (level : ossimNotifyLevel) (msg : string) (w : World)
  : World :=
  {| files := files w; notifications := notifications w ++ [(level, msg)] |}.

(** A reference to a keyword list handed to [initialize]: the object's own
    [m_kwl], or another list. *)
Inductive KwlRef : Type :=
| MemberKwl
| OtherKwl (kwl : gmap string string).

Definition deref (r : KwlRef) (u : ossimShorelineUtil) : gmap string string :=
  match r with
  | MemberKwl => m_kwl u
  | OtherKwl kwl => kwl
  end.

(** An [ossimUtility] obtained from the registry: what its [initialize] and
    [execute] do once the console stream and the keyword list are set. *)
Record ossimUtility : Type := {
  util_initialize : gmap string string -> Result unit;
  util_execute : nat -> gmap string string -> World -> Result (bool * World)
}.

(** The base class, the registry, the geometry and the image chain. *)
Class ChipProcEnv : Type := {
  (** [ossimChipProcUtil::initialize(const ossimKeywordlist&)] *)
  chipProcInitialize : KwlRef -> ossimShorelineUtil -> Result ossimShorelineUtil;
  (** [ossimChipProcUtil::execute()] *)
  chipProcExecute :
    ossimShorelineUtil -> World -> Result (bool * ossimShorelineUtil * World);
  (** [ossimUtilityRegistry::instance()->createUtility(name)]; [None] is an
      invalid reference *)
  createUtility : string -> option ossimUtility;
  (** [ossimImageGeometry::localToWorld(irect, grect)] *)
  localToWorld : ossimImageGeometry -> ossimIrect -> ossimGrect;
  (** [ossimImageChain::getTile(rect, resLevel)] on a chain whose sources
      share the geometry *)
  chainGetTile :
    list ChainSource -> ossimImageGeometry -> ossimIrect -> nat
    -> option ossimImageData
}.

(** ** The member functions *)

(** [std::endl] *)
Definition endl : string := String "010"%char EmptyString.

Definition Qltb (a b : Q) : bool := negb (Qle_bool b a).

Definition empty (s : string) : bool := (s =? "")%string.

Module Shoreline.
Section Members.

Context {strOps : ossimStringOps} {env : ChipProcEnv}.

(** [void ossimShorelineUtil::initialize(const ossimKeywordlist& kwl)].
    When [kwl] is not the member list, [m_kwl] is cleared and filled from
    it, so in both cases the keys are read from the content of [kwl]. *)
Definition initialize (kwl : KwlRef) (u : ossimShorelineUtil)
  : Result ossimShorelineUtil :=
  let kwl0 := deref kwl u in
  let value := Kwl.findKey kwl0 ALGORITHM_KW in
  try! algorithm :=
    (if negb (empty value) then
       if (value =? "ndwi")%string then Ok NDWI
       else if (value =? "awei")%string then Ok AWEI
       else Throw (BadKeywordValue 164 ALGORITHM_KW)
     else Ok (m_algorithm u)) in
  let value := Kwl.findKey kwl0 COLOR_CODING_KW in
  try! colors :=
    (if negb (empty value) then
       match split value " " with
       | [v0; v1; v2] => Ok (toUInt8 v0, toUInt8 v1, toUInt8 v2)
       | _ => Throw (UnexpectedValueCount 182 COLOR_CODING_KW)
       end
     else Ok (m_waterValue u, m_marginalValue u, m_landValue u)) in
  let '(waterValue, marginalValue, landValue) := colors in
  let value := Kwl.find kwl0 SENSOR_ID_KW in
  let sensor := if negb (empty value) then value else m_sensor u in
  let doEdgeDetect :=
    getBoolKeywordValue kwl0 (m_doEdgeDetect u) DO_EDGE_DETECT_KW in
  let value := Kwl.findKey kwl0 SMOOTHING_KW in
  let smoothing :=
    if negb (empty value) then toDouble value else m_smoothing u in
  let value := Kwl.findKey kwl0 THRESHOLD_KW in
  let '(skipThreshold, threshold) :=
    if negb (empty value) then
      if (value =? "X")%string then (true, m_threshold u)
      else (m_skipThreshold u, toDouble value)
    else (m_skipThreshold u, m_threshold u) in
  let value := Kwl.findKey kwl0 TOLERANCE_KW in
  let tolerance :=
    if negb (empty value) then toDouble value else m_tolerance u in
  (* Output filename specifies the vector output, while the base class
     interprets it as raster. *)
  let '(vectorFilename, productFilename, kwl1) :=
    if negb doEdgeDetect then
      let vectorFilename := Kwl.find kwl0 OUTPUT_FILE_KW in
      let '(vectorFilename, productFilename) :=
        if (vectorFilename =? DUMMY_OUTPUT_FILENAME)%string
        then ("", appendTimestamp TEMP_RASTER_PRODUCT_FILENAME)
        else (vectorFilename, setExtension vectorFilename "tif") in
      (vectorFilename, productFilename,
       Kwl.add OUTPUT_FILE_KW productFilename kwl0)
    else (m_vectorFilename u, m_productFilename u, kwl0) in
  chipProcInitialize kwl
    {| m_waterValue := waterValue;
       m_marginalValue := marginalValue;
       m_landValue := landValue;
       m_sensor := sensor;
       m_threshold := threshold;
       m_tolerance := tolerance;
       m_algorithm := algorithm;
       m_skipThreshold := skipThreshold;
       m_smoothing := smoothing;
       m_doEdgeDetect := doEdgeDetect;
       m_vectorFilename := vectorFilename;
       m_productFilename := productFilename;
       m_kwl := kwl1;
       m_imgLayers := m_imgLayers u;
       m_procChain := m_procChain u;
       m_geom := m_geom u;
       m_aoiViewRect := m_aoiViewRect u;
       m_aoiGroundRect := m_aoiGroundRect u;
       m_consoleStream := m_consoleStream u |}.

(** The [switch (m_algorithm)] of [initLandsat8]: [reqdNumInputs] and
    [equationSpec].  The enumeration has no third value, so the [default]
    label is never taken. *)
Definition reqdNumInputs (a : AlgorithmId) : nat :=
  match a with
  | NDWI => 2
  | AWEI => 4
  end.

Definition equationSpec (a : AlgorithmId) : string :=
  match a with
  | NDWI => "in[0]/(in[0]+in[1])"
  | AWEI => "4*(in[0]+in[1]) - 0.25*in[2] - 2.75*in[3]"
  end.

(** [for (i; i < reqdNumInputs; ++i) connectable_list.push_back(m_imgLayers[i])],
    with [todo = reqdNumInputs - i] iterations left.  The size check
    before the loop keeps [i] in range; out of range the model stops. *)
Fixpoint push_layers (imgLayers : list ImageLayer) (i todo : nat)
    (connectable_list : list ImageLayer) : list ImageLayer :=
  match todo with
  | O => connectable_list
  | S todo' =>
      match imgLayers !! i with
      | Some l => push_layers imgLayers (S i) todo' (connectable_list ++ [l])
      | None => connectable_list
      end
  end.

(** [void ossimShorelineUtil::initLandsat8()] *)
Definition initLandsat8 (u : ossimShorelineUtil) : Result ossimShorelineUtil :=
  let reqd := reqdNumInputs (m_algorithm u) in
  let equation := equationSpec (m_algorithm u) in
  if (length (m_imgLayers u) <? reqd)%nat then
    Throw (TooFewInputImages 333 reqd (length (m_imgLayers u)))
  else
    let connectable_list := push_layers (m_imgLayers u) 0 reqd [] in
    Ok (chain_add (EquationCombiner connectable_list OSSIM_FLOAT equation) u).

(** The keyword list [remapper_kwl] that [initProcessingChain] builds for
    the threshold filter. *)
Definition remapper_kwl (u : ossimShorelineUtil) : gmap string string :=
  let del := FLT_EPSILON in
  let landValue := toStringU8 (m_landValue u) in
  let waterValue := toStringU8 (m_waterValue u) in
  let marginalValue := toStringU8 (m_marginalValue u) in
  let thresholdValueLo1 := toStringF64 (m_threshold u - m_tolerance u) in
  let thresholdValueLo2 :=
    toStringF64 (m_threshold u - m_tolerance u + del) in
  let thresholdValueHi1 := toStringF64 (m_threshold u + m_tolerance u) in
  let thresholdValueHi2 :=
    toStringF64 (m_threshold u + m_tolerance u + del) in
  let k := Kwl.add "type" "ossimBandLutFilter" ∅ in
  let k := Kwl.add "enabled" "1" k in
  let k := Kwl.add "mode" "interpolated" k in
  let k := Kwl.add "scalar_type" "U8" k in
  let k := Kwl.add "entry0.in" "0.0" k in
  let k := Kwl.add "entry0.out" landValue k in
  let k := Kwl.add "entry1.in" thresholdValueLo1 k in
  let k := Kwl.add "entry1.out" landValue k in
  if Qeq_bool (m_tolerance u) 0 then
    let k := Kwl.add "entry2.in" thresholdValueLo2 k in
    let k := Kwl.add "entry2.out" waterValue k in
    let k := Kwl.add "entry3.in" "1.0" k in
    Kwl.add "entry3.out" waterValue k
  else
    let k := Kwl.add "entry2.in" thresholdValueLo2 k in
    let k := Kwl.add "entry2.out" marginalValue k in
    let k := Kwl.add "entry3.in" thresholdValueHi1 k in
    let k := Kwl.add "entry3.out" marginalValue k in
    let k := Kwl.add "entry4.in" thresholdValueHi2 k in
    let k := Kwl.add "entry4.out" waterValue k in
    let k := Kwl.add "entry5.in" "1.0" k in
    Kwl.add "entry5.out" waterValue k.

(** [void ossimShorelineUtil::initProcessingChain()] *)
Definition initProcessingChain (u : ossimShorelineUtil)
  : Result ossimShorelineUtil :=
  if grect_hasNans (m_aoiGroundRect u) || irect_hasNans (m_aoiViewRect u)
  then Throw (NaNsInAoi 239)
  else
    try! u :=
      (if (m_sensor u =? "ls8")%string then initLandsat8 u
       else Throw (SensorNotSupported 247 (m_sensor u))) in
    let u :=
      if negb (m_skipThreshold u)
      then chain_add (BandLutFilter (remapper_kwl u)) u else u in
    let u :=
      if Qltb 0 (m_smoothing u)
      then chain_add (ImageGaussianFilter (m_smoothing u)) u else u in
    let u :=
      if m_doEdgeDetect u
      then chain_add (EdgeFilter "roberts") u else u in
    Ok u.

(** [ossimRefPtr<ossimImageData> ossimShorelineUtil::getChip(const ossimIrect&)]:
    the tile (null when there is no geometry) and the object as the call
    leaves it. *)
Definition getChip (bounding_irect : ossimIrect) (u : ossimShorelineUtil)
  : option ossimImageData * ossimShorelineUtil :=
  match m_geom u with
  | None => (None, u)
  | Some geom =>
      let aoiViewRect := bounding_irect in
      let geom := setImageSize (irect_size aoiViewRect) geom in
      let aoiGroundRect := localToWorld geom aoiViewRect in
      (chainGetTile (m_procChain u) geom aoiViewRect 0,
       {| m_waterValue := m_waterValue u;
          m_marginalValue := m_marginalValue u;
          m_landValue := m_landValue u;
          m_sensor := m_sensor u;
          m_threshold := m_threshold u;
          m_tolerance := m_tolerance u;
          m_algorithm := m_algorithm u;
          m_skipThreshold := m_skipThreshold u;
          m_smoothing := m_smoothing u;
          m_doEdgeDetect := m_doEdgeDetect u;
          m_vectorFilename := m_vectorFilename u;
          m_productFilename := m_productFilename u;
          m_kwl := m_kwl u;
          m_imgLayers := m_imgLayers u;
          m_procChain := m_procChain u;
          m_geom := Some geom;
          m_aoiViewRect := aoiViewRect;
          m_aoiGroundRect := aoiGroundRect;
          m_consoleStream := m_consoleStream u |})
  end.

(** The text sent to [ossimNotify] when the plugin is missing. *)
Definition potrace_missing_msg (u : ossimShorelineUtil) : string :=
  "ossimShorelineUtil:" ++ "379" ++ "  Need the "
  ++ "ossim-potrace plugin to perform vectorization. Only the thresholded image is "
  ++ "available at <" ++ m_productFilename u ++ ">." ++ endl.

(** The keyword list handed to the potrace utility. *)
Definition potrace_kwl (u : ossimShorelineUtil) : gmap string string :=
  let k := Kwl.add IMAGE_FILE_KW (m_productFilename u) ∅ in
  let k := Kwl.add OUTPUT_FILE_KW (m_vectorFilename u) k in
  Kwl.add "mode" "polygon" k.

(** [bool ossimShorelineUtil::execute()]: the returned flag, the object
    and the world.  The [bool status] declared inside the [if] block is a
    second variable: what [potrace->execute()] returns goes there and the
    block ends. *)
Definition execute (u : ossimShorelineUtil) (w : World)
  : Result (bool * ossimShorelineUtil * World) :=
  try! base := chipProcExecute u w in
  let '(status, u, w) := base in
  if negb (m_doEdgeDetect u) then
    match createUtility "potrace" with
    | None =>
        Ok (false, u,
            ossimNotify ossimNotifyLevel_WARN (potrace_missing_msg u) w)
    | Some potrace =>
        try! _ := util_initialize potrace (potrace_kwl u) in
        try! vectorized :=
          util_execute potrace (m_consoleStream u) (potrace_kwl u) w in
        let '(inner_status, w) := vectorized in
        Ok (status, u, w)
    end
  else Ok (status, u, w).

End Members.
End Shoreline.

(** ** The band LUT filter *)

Module BandLut.
Section Filter.

Context {strOps : ossimStringOps}.

(** Modelled from the spec: the key of one field of the [n]-th control
    point, as [remapper_kwl] writes them: [entry<n>.in], [entry<n>.out]. *)
Definition entry_key (n : nat) (field : string) : string :=
  "entry" ++ NilEmpty.string_of_uint (Nat.to_uint n) ++ "." ++ field.

(** Modelled from the spec: the control points [entry<n>.in],
    [entry<n>.out] for [n = first, first + 1, ...], up to the first index
    with a missing field. *)
Fixpoint read_entries (kwl : gmap string string) (first count : nat)
  : list (Q * Q) :=
  match count with
  | O => []
  | S count' =>
      match kwl !! entry_key first "in", kwl !! entry_key first "out" with
      | Some i, Some o =>
          (toDouble i, toDouble o) :: read_entries kwl (S first) count'
      | _, _ => []
      end
  end.

(** Modelled from the spec: [ossimBandLutFilter::loadState] is missing
    from the sources at hand.  The spec describes the classifier as "a
    lookup/interpolation table built once from the configuration" out of
    the "listed control points"; the table is the list of control points
    in the order of their entry numbers. *)
Definition loadState (kwl : gmap string string) : list (Q * Q) :=
  read_entries kwl 0 (size kwl).

(** Modelled from the spec: "linear interpolation between listed control
    points", the value at [v] of the line through two of them. *)
Definition interpolate (p q : Q * Q) (v : Q) : Q :=
  snd p + (v - fst p) * ((snd q - snd p) / (fst q - fst p)).

(** Modelled from the spec: the per-pixel mapping of
    [ossimBandLutFilter] in mode "interpolated" is missing from the
    sources at hand.  The spec gives it as a "piecewise mapping of
    normalized index value v" with "linear interpolation between listed
    control points (not a hard step)": the first pair of neighbouring
    control points whose inputs enclose [v] decides, and the result is
    the value before it is stored as a byte.  [None]: no pair encloses
    [v]. *)
Fixpoint lookup (lut : list (Q * Q)) (v : Q) : option Q :=
  match lut with
  | p :: (q :: _) as rest =>
      if Qle_bool (fst p) v && Qle_bool v (fst q)
      then Some (interpolate p q v)
      else lookup rest v
  | _ => None
  end.

(** The table maps [v] to (a rational equal to) [y]. *)
Definition maps_to (lut : list (Q * Q)) (v y : Q) : Prop :=
  exists y', lookup lut v = Some y' /\ y' == y.

End Filter.
End BandLut.

(** The threshold classifier of a configured object: the table the
    remapper loads from [remapper_kwl]. *)
Definition classifier_lut `{ossimStringOps} (u : ossimShorelineUtil)
  : list (Q * Q) :=
  BandLut.loadState (Shoreline.remapper_kwl u).

(** The four breakpoints of the classifier. *)
Definition lo1 (u : ossimShorelineUtil) : Q := m_threshold u - m_tolerance u.
Definition lo2 (u : ossimShorelineUtil) : Q := lo1 u + FLT_EPSILON.
Definition hi1 (u : ossimShorelineUtil) : Q := m_threshold u + m_tolerance u.
Definition hi2 (u : ossimShorelineUtil) : Q := hi1 u + FLT_EPSILON.

(** The conversions round-trip on what [remapper_kwl] prints: the two
    literals, the three colour codes and the four breakpoints. *)
Record prints_exactly `{ossimStringOps} (u : ossimShorelineUtil) : Prop := {
  parse_zero : toDouble "0.0" == 0;
  parse_one : toDouble "1.0" == 1;
  parse_land : toDouble (toStringU8 (m_landValue u)) == inject_Z (m_landValue u);
  parse_marginal :
    toDouble (toStringU8 (m_marginalValue u)) == inject_Z (m_marginalValue u);
  parse_water :
    toDouble (toStringU8 (m_waterValue u)) == inject_Z (m_waterValue u);
  parse_lo1 : toDouble (toStringF64 (lo1 u)) == lo1 u;
  parse_lo2 : toDouble (toStringF64 (lo2 u)) == lo2 u;
  parse_hi1 : toDouble (toStringF64 (hi1 u)) == hi1 u;
  parse_hi2 : toDouble (toStringF64 (hi2 u)) == hi2 u
}.

(** ** Decimal text

    Reading and printing of decimal numerals, shared by the equation
    language below and by the reference instance of [ossimStringOps]. *)

Module Text.

Definition digit (c : ascii) : option Z :=
  let n := Z.of_N (N_of_ascii c) in
  if ((48 <=? n) && (n <=? 57))%Z then Some (n - 48)%Z else None.

(** The digits at the head of [cs]: their value on top of [acc], how many
    there were on top of [count], and the rest. *)
Fixpoint digits (cs : list ascii) (acc : Z) (count : nat)
  : Z * nat * list ascii :=
  match cs with
  | c :: cs' =>
      match digit c with
      | Some d => digits cs' (10 * acc + d)%Z (S count)
      | None => (acc, count, cs)
      end
  | [] => (acc, count, [])
  end.

(** An unsigned numeral [ddd] or [ddd.ddd] at the head of [cs]; [None]
    when [cs] starts with neither a digit nor a point followed by one. *)
Definition number (cs : list ascii) : option (Q * list ascii) :=
  let '(ip, n, rest) := digits cs 0 0 in
  match rest with
  | "."%char :: rest' =>
      let '(fp, k, rest'') := digits rest' 0 0 in
      if (n + k =? 0)%nat then None
      else
        let scale := (10 ^ Z.of_nat k)%Z in
        Some ((ip * scale + fp)%Z # Z.to_pos scale, rest'')
  | _ => if (n =? 0)%nat then None else Some (inject_Z ip, rest)
  end.

(** A signed numeral that is the whole text; anything else reads as 0. *)
Definition to_Q (s : string) : Q :=
  match list_ascii_of_string s with
  | "-"%char :: cs =>
      match number cs with
      | Some (q, []) => - q
      | _ => 0
      end
  | cs =>
      match number cs with
      | Some (q, []) => q
      | _ => 0
      end
  end.

(** [places] decimals of [r / d], for [0 <= r < d]; stops when the
    remainder is used up. *)
Fixpoint decimals (places : nat) (r d : Z) : string :=
  match places with
  | O => ""
  | S places' =>
      if (r =? 0)%Z then ""
      else
        let r10 := (10 * r)%Z in
        NilZero.string_of_int (Z.to_int (r10 / d))
        ++ decimals places' (r10 mod d)%Z d
  end.

(** [q] in positional notation with at most [places] decimals. *)
Definition of_Q (places : nat) (q : Q) : string :=
  let n := Qnum q in
  let d := Z.pos (Qden q) in
  let a := Z.abs n in
  let sign := if (n <? 0)%Z then "-" else "" in
  let frac := decimals places (a mod d)%Z d in
  sign ++ NilZero.string_of_int (Z.to_int (a / d))
       ++ (if empty frac then "" else "." ++ frac).

(** The fields of [s] between occurrences of [sep]; [field] holds the
    characters of the current field in reverse. *)
Fixpoint fields (sep : ascii) (cs field : list ascii) : list string :=
  match cs with
  | [] => [string_of_list_ascii (rev field)]
  | c :: cs' =>
      if Ascii.eqb c sep
      then string_of_list_ascii (rev field) :: fields sep cs' []
      else fields sep cs' (c :: field)
  end.

Definition split_on (s seps : string) : list string :=
  match list_ascii_of_string seps with
  | sep :: _ => fields sep (list_ascii_of_string s) []
  | [] => [s]
  end.

(** The part of a file name before its last point. *)
Fixpoint stem (cs : list ascii) : list ascii :=
  match cs with
  | [] => []
  | c :: cs' =>
      if Ascii.eqb c "."%char && negb (existsb (Ascii.eqb "."%char) cs')
      then [] else c :: stem cs'
  end.

End Text.

(** A reference instance of the string interface, to run the model on
    concrete keyword lists: plain decimal numerals, thirty decimals printed,
    a clock that stands still. *)
Definition referenceStrings : ossimStringOps :=
  {| toDouble := Text.to_Q;
     toUInt8 := fun s => (Qnum (Text.to_Q s) mod 256)%Z;
     toBool := fun s => (s =? "true")%string || (s =? "yes")%string
                        || (s =? "1")%string;
     toStringF64 := Text.of_Q 30;
     toStringU8 := fun z => NilZero.string_of_int (Z.to_int z);
     split := Text.split_on;
     appendTimestamp := fun f => f ++ ".0";
     setExtension := fun f ext =>
       string_of_list_ascii (Text.stem (list_ascii_of_string f)) ++ "." ++ ext
  |}.

(** ** The equation combiner *)

Module Equation.

(** Modelled from the spec: the "named algebraic formulas" of the Index
    Evaluator, as syntax. *)
Inductive Expr : Type :=
| Const (q : Q)
| Band (i : nat)
| Add (a b : Expr)
| Sub (a b : Expr)
| Mul (a b : Expr)
| Div (a b : Expr).

Inductive Token : Type :=
| TNum (q : Q) | TBand (i : nat)
| TPlus | TMinus | TStar | TSlash | TOpen | TClose.

(** Modelled from the spec: the tokens of an equation text, which are
    numerals, [in[<i>]], the four operators and parentheses, blanks skipped.  Each step uses up at least one
    character, so [fuel] above the length of [cs] is never exhausted. *)
Fixpoint lex (fuel : nat) (cs : list ascii) : option (list Token) :=
  match fuel with
  | O => None
  | S fuel' =>
      match cs with
      | [] => Some []
      | " "%char :: cs' => lex fuel' cs'
      | "+"%char :: cs' => cons TPlus <$> lex fuel' cs'
      | "-"%char :: cs' => cons TMinus <$> lex fuel' cs'
      | "*"%char :: cs' => cons TStar <$> lex fuel' cs'
      | "/"%char :: cs' => cons TSlash <$> lex fuel' cs'
      | "("%char :: cs' => cons TOpen <$> lex fuel' cs'
      | ")"%char :: cs' => cons TClose <$> lex fuel' cs'
      | "i"%char :: "n"%char :: "["%char :: cs' =>
          let '(i, n, rest) := Text.digits cs' 0 0 in
          match n, rest with
          | S _, "]"%char :: rest' =>
              cons (TBand (Z.to_nat i)) <$> lex fuel' rest'
          | _, _ => None
          end
      | _ =>
          match Text.number cs with
          | Some (q, rest) => cons (TNum q) <$> lex fuel' rest
          | None => None
          end
      end
  end.

(** Modelled from the spec: formulas read as ordinary algebra, sums of
    products of atoms, operators of equal rank grouped from the left. *)
Fixpoint parse_sum (fuel : nat) (ts : list Token)
  : option (Expr * list Token) :=
  match fuel with
  | O => None
  | S fuel' =>
      match parse_product fuel' ts with
      | Some (e, rest) => sum_tail fuel' e rest
      | None => None
      end
  end
with sum_tail (fuel : nat) (acc : Expr) (ts : list Token)
  : option (Expr * list Token) :=
  match fuel with
  | O => None
  | S fuel' =>
      match ts with
      | TPlus :: ts' =>
          match parse_product fuel' ts' with
          | Some (e, rest) => sum_tail fuel' (Add acc e) rest
          | None => None
          end
      | TMinus :: ts' =>
          match parse_product fuel' ts' with
          | Some (e, rest) => sum_tail fuel' (Sub acc e) rest
          | None => None
          end
      | _ => Some (acc, ts)
      end
  end
with parse_product (fuel : nat) (ts : list Token)
  : option (Expr * list Token) :=
  match fuel with
  | O => None
  | S fuel' =>
      match parse_atom fuel' ts with
      | Some (e, rest) => product_tail fuel' e rest
      | None => None
      end
  end
with product_tail (fuel : nat) (acc : Expr) (ts : list Token)
  : option (Expr * list Token) :=
  match fuel with
  | O => None
  | S fuel' =>
      match ts with
      | TStar :: ts' =>
          match parse_atom fuel' ts' with
          | Some (e, rest) => product_tail fuel' (Mul acc e) rest
          | None => None
          end
      | TSlash :: ts' =>
          match parse_atom fuel' ts' with
          | Some (e, rest) => product_tail fuel' (Div acc e) rest
          | None => None
          end
      | _ => Some (acc, ts)
      end
  end
with parse_atom (fuel : nat) (ts : list Token)
  : option (Expr * list Token) :=
  match fuel with
  | O => None
  | S fuel' =>
      match ts with
      | TNum q :: rest => Some (Const q, rest)
      | TBand i :: rest => Some (Band i, rest)
      | TOpen :: ts' =>
          match parse_sum fuel' ts' with
          | Some (e, TClose :: rest) => Some (e, rest)
          | _ => None
          end
      | _ => None
      end
  end.

(** Modelled from the spec: the formula an equation text stands for;
    [None] when the text is not a formula. *)
Definition parse (equation : string) : option Expr :=
  let cs := list_ascii_of_string equation in
  ts ← lex (S (length cs)) cs;
  match parse_sum (4 * length ts + 4) ts with
  | Some (e, []) => Some e
  | _ => None
  end.

(** Modelled from the spec: the "per-pixel scalar index value" of an
    expression, [bands] holding the samples of the connected inputs there; [None] when it names an input that is
    not connected.  A quotient by zero is [Q]'s (zero). *)
Fixpoint eval (e : Expr) (bands : list Q) : option Q :=
  match e with
  | Const q => Some q
  | Band i => bands !! i
  | Add a b => x ← eval a bands; y ← eval b bands; Some (x + y)%Q
  | Sub a b => x ← eval a bands; y ← eval b bands; Some (x - y)%Q
  | Mul a b => x ← eval a bands; y ← eval b bands; Some (x * y)%Q
  | Div a b => x ← eval a bands; y ← eval b bands; Some (x / y)%Q
  end.

(** Modelled from the spec: [ossimEquationCombiner] is missing from the
    sources at hand.  The spec's Index Evaluator "computes a per-pixel
    scalar index value from a fixed-size set of input band tiles using one
    of a small set of named algebraic formulas", written [b0 / (b0 + b1)]
    and [4*(b0+b1) - 0.25*b2 - 2.75*b3]; the equation text is read as
    ordinary algebra, [in[i]] naming the sample of input [i]. *)
Definition evaluate (equation : string) (bands : list Q) : option Q :=
  e ← parse equation; eval e bands.

End Equation.

(** ** The spec's view *)

(** Modelled from the spec: the error taxonomy of its section 7.  The code
    has one exception class; the kinds are told apart by where the
    exception is raised. *)
Inductive ErrorKind : Type :=
| InvalidConfiguration
| InsufficientInputs
| UnsupportedConfiguration
| InvalidAOI
| OtherFailure.

(** Modelled from the spec: the kind of each exception the file raises,
    after section 7 (algorithm name and colour-coding arity are
    InvalidConfiguration, band count InsufficientInputs, sensor
    UnsupportedConfiguration, undefined bounds InvalidAOI). *)
Definition errorKind (e : ossimException) : ErrorKind :=
  match e with
  | BadKeywordValue _ _ => InvalidConfiguration
  | UnexpectedValueCount _ _ => InvalidConfiguration
  | NaNsInAoi _ => InvalidAOI
  | SensorNotSupported _ _ => UnsupportedConfiguration
  | TooFewInputImages _ _ _ => InsufficientInputs
  | BaseException _ => OtherFailure
  end.

(** The table of section 4.2 for a positive tolerance, as control points
    over breakpoints [a], [b], [c], [d]. *)
Definition banded_table (land marginal water a b c d : Q) : list (Q * Q) :=
  [ (0%Q, land); (a, land); (b, marginal); (c, marginal); (d, water);
    (1%Q, water) ].

(** The collapsed table of section 4.2 for [tolerance == 0]. *)
Definition collapsed_table (land water a b : Q) : list (Q * Q) :=
  [ (0%Q, land); (a, land); (b, water); (1%Q, water) ].

(** The two tables for the parameters of an object. *)
Definition spec_table_banded (u : ossimShorelineUtil) : list (Q * Q) :=
  banded_table
    (inject_Z (m_landValue u)) (inject_Z (m_marginalValue u))
    (inject_Z (m_waterValue u)) (lo1 u) (lo2 u) (hi1 u) (hi2 u).

Definition spec_table_collapsed (u : ossimShorelineUtil) : list (Q * Q) :=
  collapsed_table
    (inject_Z (m_landValue u)) (inject_Z (m_waterValue u)) (lo1 u) (lo2 u).

(** Two tables with equal numbers at every control point. *)
Definition same_table (t1 t2 : list (Q * Q)) : Prop :=
  Forall2 (fun p q => fst p == fst q /\ snd p == snd q) t1 t2.

(** The stages [initProcessingChain] appends after the equation combiner. *)
Definition later_stages `{ossimStringOps} (u : ossimShorelineUtil)
  : list ChainSource :=
  (if m_skipThreshold u then []
   else [BandLutFilter (Shoreline.remapper_kwl u)])
  ++ (if Qltb 0 (m_smoothing u)
      then [ImageGaussianFilter (m_smoothing u)] else [])
  ++ (if m_doEdgeDetect u then [EdgeFilter "roberts"] else []).

Definition is_classifier (s : ChainSource) : bool :=
  match s with BandLutFilter _ => true | _ => false end.

Definition is_edge_filter (s : ChainSource) : bool :=
  match s with EdgeFilter _ => true | _ => false end.

(** The two checks [initialize] makes on its keywords. *)
Definition algorithm_accepted (kwl : gmap string string) : Prop :=
  let value := Kwl.findKey kwl ALGORITHM_KW in
  value = "" \/ value = "ndwi" \/ value = "awei".

Definition color_coding_accepted `{ossimStringOps} (kwl : gmap string string)
  : Prop :=
  let value := Kwl.findKey kwl COLOR_CODING_KW in
  value = "" \/ length (split value " ") = 3%nat.

(** The object after a run of chip requests, oldest first. *)
Definition after_requests `{ChipProcEnv}
    (requests : list ossimIrect) (u : ossimShorelineUtil)
  : ossimShorelineUtil :=
  fold_left (fun u r => snd (Shoreline.getChip r u)) requests u.

(** ** Sample objects and environments *)

Module Samples.

Definition nan_grect : ossimGrect :=
  {| ul_lat := None; ul_lon := None; lr_lat := None; lr_lon := None |}.

Definition nan_irect : ossimIrect :=
  {| ul_x := OSSIM_INT_NAN; ul_y := OSSIM_INT_NAN;
     lr_x := OSSIM_INT_NAN; lr_y := OSSIM_INT_NAN |}.

(** A freshly constructed utility: defaults, nothing loaded. *)
Definition fresh : ossimShorelineUtil :=
  construct
    {| m_waterValue := 0; m_marginalValue := 0; m_landValue := 0;
       m_sensor := ""; m_threshold := 0; m_tolerance := 0;
       m_algorithm := NDWI; m_skipThreshold := false; m_smoothing := 0;
       m_doEdgeDetect := false;
       m_vectorFilename := ""; m_productFilename := "";
       m_kwl := ∅; m_imgLayers := []; m_procChain := [];
       m_geom := None;
       m_aoiViewRect := nan_irect; m_aoiGroundRect := nan_grect;
       m_consoleStream := 0 |}.

Definition tile : ossimIrect :=
  {| ul_x := 0; ul_y := 0; lr_x := 63; lr_y := 63 |}.

Definition ground : ossimGrect :=
  {| ul_lat := Some 1%Q; ul_lon := Some 0%Q;
     lr_lat := Some 0%Q; lr_lon := Some 1%Q |}.

(** What the base class puts in place before it calls
    [initProcessingChain]: [n] input images, a geometry and an area of
    interest. *)
Definition with_inputs (n : nat) (u : ossimShorelineUtil)
  : ossimShorelineUtil :=
  {| m_waterValue := m_waterValue u;
     m_marginalValue := m_marginalValue u;
     m_landValue := m_landValue u;
     m_sensor := m_sensor u;
     m_threshold := m_threshold u;
     m_tolerance := m_tolerance u;
     m_algorithm := m_algorithm u;
     m_skipThreshold := m_skipThreshold u;
     m_smoothing := m_smoothing u;
     m_doEdgeDetect := m_doEdgeDetect u;
     m_vectorFilename := m_vectorFilename u;
     m_productFilename := m_productFilename u;
     m_kwl := m_kwl u;
     m_imgLayers := map layer (seq 0 n);
     m_procChain := [];
     m_geom := Some {| geom_projection := 0; geom_imageSize := (64, 64)%Z |};
     m_aoiViewRect := tile;
     m_aoiGroundRect := ground;
     m_consoleStream := m_consoleStream u |}.

(** [fresh] with four parameters replaced, file names set and [n] inputs
    in place. *)
Definition loaded (algorithm : AlgorithmId) (n : nat)
    (threshold tolerance : Q) (doEdgeDetect : bool) : ossimShorelineUtil :=
  with_inputs n
    {| m_waterValue := m_waterValue fresh;
       m_marginalValue := m_marginalValue fresh;
       m_landValue := m_landValue fresh;
       m_sensor := m_sensor fresh;
       m_threshold := threshold;
       m_tolerance := tolerance;
       m_algorithm := algorithm;
       m_skipThreshold := false;
       m_smoothing := m_smoothing fresh;
       m_doEdgeDetect := doEdgeDetect;
       m_vectorFilename := "shore.json";
       m_productFilename := "shore.tif";
       m_kwl := m_kwl fresh;
       m_imgLayers := m_imgLayers fresh;
       m_procChain := m_procChain fresh;
       m_geom := m_geom fresh;
       m_aoiViewRect := m_aoiViewRect fresh;
       m_aoiGroundRect := m_aoiGroundRect fresh;
       m_consoleStream := 1 |}.

(** The object a successful call leaves, [u] otherwise. *)
Definition outcome (r : Result ossimShorelineUtil) (u : ossimShorelineUtil)
  : ossimShorelineUtil :=
  match r with Ok u' => u' | Throw _ => u end.

(** The default parameters over two inputs, and the object after
    [initProcessingChain]. *)
Definition ndwi_run : ossimShorelineUtil :=
  loaded NDWI 2 (55 # 100) (1 # 100) false.

Definition ndwi_built : ossimShorelineUtil :=
  outcome (Shoreline.initProcessingChain (strOps := referenceStrings) ndwi_run)
    ndwi_run.

(** The same in edge-detect mode. *)
Definition edge_run : ossimShorelineUtil :=
  loaded NDWI 2 (55 # 100) (1 # 100) true.

Definition edge_built : ossimShorelineUtil :=
  outcome (Shoreline.initProcessingChain (strOps := referenceStrings) edge_run)
    edge_run.

(** AWEI over four and over two inputs, NDWI over three. *)
Definition awei_run : ossimShorelineUtil :=
  loaded AWEI 4 (55 # 100) (1 # 100) false.

Definition awei_short : ossimShorelineUtil :=
  loaded AWEI 2 (55 # 100) (1 # 100) false.

Definition ndwi_extra : ossimShorelineUtil :=
  loaded NDWI 3 (55 # 100) (1 # 100) false.


(** A keyword list with a threshold above one and a negative tolerance,
    and the object [initialize] makes of it. *)
Definition out_of_range : gmap string string :=
  Kwl.add TOLERANCE_KW "-0.2" (Kwl.add THRESHOLD_KW "1.5" ∅).

Definition raster_written (u : ossimShorelineUtil) (w : World) : World :=
  {| files := <[m_productFilename u := [0; 255]%Z]> (files w);
     notifications := notifications w |}.

Definition vector_written (kwl : gmap string string) (w : World) : World :=
  {| files := <[Kwl.find kwl OUTPUT_FILE_KW := []]> (files w);
     notifications := notifications w |}.

Definition nothing : World := {| files := ∅; notifications := [] |}.

(** A potrace utility whose [execute] returns [result]. *)
Definition potrace (result : bool) : ossimUtility :=
  {| util_initialize := fun _ => Ok tt;
     util_execute := fun _ kwl w => Ok (result, vector_written kwl w) |}.

(** An environment whose base class loads [n] images for every keyword
    list, builds the chain and writes the raster; [plugin] is what the
    registry holds under "potrace". *)
Definition environment `{ossimStringOps} (n : nat)
    (plugin : option ossimUtility) : ChipProcEnv :=
  {| chipProcInitialize := fun _ u =>
       Shoreline.initProcessingChain (with_inputs n u);
     chipProcExecute := fun u w => Ok (true, u, raster_written u w);
     createUtility := fun name =>
       if (name =? "potrace")%string then plugin else None;
     localToWorld := fun _ _ => ground;
     chainGetTile := fun _ _ _ _ => Some [] |}.

(** Two inputs per run, reference strings; without the plugin, and with
    one whose [execute] returns [result]. *)
Definition standalone : ChipProcEnv :=
  environment (H := referenceStrings) 2 None.

Definition with_plugin (result : bool) : ChipProcEnv :=
  environment (H := referenceStrings) 2 (Some (potrace result)).

Definition out_of_range_loaded : ossimShorelineUtil :=
  outcome
    (Shoreline.initialize (strOps := referenceStrings) (env := standalone)
       (OtherKwl out_of_range) fresh)
    fresh.

End Samples.

(** ** The command line *)

(** [ossimArgumentParser], the base class's part in reading it, and what
    is left of the arguments are interfaces as well.  The parser's state is
    the list of arguments not yet consumed. *)
Class ArgumentParserEnv : Type := {
  (** [ap.read(option)]: the arguments left when the option was there *)
  ap_read0 : string -> list string -> option (list string);
  (** [ap.read(option, sp1)]: the value read and the arguments left *)
  ap_read1 : string -> list string -> option (string * list string);
  (** [ap.read(option, sp1, sp2, sp3)] *)
  ap_read3 :
    string -> list string -> option (string * string * string * list string);
  (** [ossimChipProcUtil::initialize(ossimArgumentParser&)] *)
  chipProcInitializeArgs :
    list string -> ossimShorelineUtil
    -> Result (bool * list string * ossimShorelineUtil);
  (** [ossimChipProcUtil::processRemainingArgs(ap)] *)
  processRemainingArgs :
    list string -> ossimShorelineUtil
    -> Result (list string * ossimShorelineUtil)
}.

(** Assignment to [m_kwl]. *)
Definition set_kwl (kwl : gmap string string) (u : ossimShorelineUtil)
  : ossimShorelineUtil :=
  {| m_waterValue := m_waterValue u;
     m_marginalValue := m_marginalValue u;
     m_landValue := m_landValue u;
     m_sensor := m_sensor u;
     m_threshold := m_threshold u;
     m_tolerance := m_tolerance u;
     m_algorithm := m_algorithm u;
     m_skipThreshold := m_skipThreshold u;
     m_smoothing := m_smoothing u;
     m_doEdgeDetect := m_doEdgeDetect u;
     m_vectorFilename := m_vectorFilename u;
     m_productFilename := m_productFilename u;
     m_kwl := kwl;
     m_imgLayers := m_imgLayers u;
     m_procChain := m_procChain u;
     m_geom := m_geom u;
     m_aoiViewRect := m_aoiViewRect u;
     m_aoiGroundRect := m_aoiGroundRect u;
     m_consoleStream := m_consoleStream u |}.

Module CommandLine.
Section Members.

Context {ap : ArgumentParserEnv}.

(** [if (ap.read(flag, sp1)) m_kwl.addPair(key, ts1);] on the arguments
    left and the member list. *)
Definition read_pair (flag key : string)
    (st : list string * gmap string string)
  : list string * gmap string string :=
  match ap_read1 flag (fst st) with
  | Some (ts1, args) => (args, Kwl.add key ts1 (snd st))
  | None => st
  end.

(** [if (ap.read("--color-coding", sp1, sp2, sp3)) ...]: the three values
    go into one pair, a blank between them. *)
Definition read_color_coding (st : list string * gmap string string)
  : list string * gmap string string :=
  match ap_read3 "--color-coding" (fst st) with
  | Some (ts1, ts2, ts3, args) =>
      (args, Kwl.add COLOR_CODING_KW (ts1 ++ " " ++ ts2 ++ " " ++ ts3) (snd st))
  | None => st
  end.

(** [if (ap.read("--edge")) m_kwl.addPair(DO_EDGE_DETECT_KW, "true");] *)
Definition read_edge (st : list string * gmap string string)
  : list string * gmap string string :=
  match ap_read0 "--edge" (fst st) with
  | Some args => (args, Kwl.add DO_EDGE_DETECT_KW "true" (snd st))
  | None => st
  end.

(** Lines 109 to 136 of [initialize(ossimArgumentParser&)]: the seven
    options in the order they are read, then the stand-in output name. *)
Definition read_options (st : list string * gmap string string)
  : list string * gmap string string :=
  let st := read_pair "--algorithm" ALGORITHM_KW st in
  let st := read_color_coding st in
  let st := read_edge st in
  let st := read_pair "--sensor" SENSOR_ID_KW st in
  let st := read_pair "--smooth" SMOOTHING_KW st in
  let st := read_pair "--threshold" THRESHOLD_KW st in
  let st := read_pair "--tolerance" TOLERANCE_KW st in
  (fst st, Kwl.add OUTPUT_FILE_KW DUMMY_OUTPUT_FILENAME (snd st)).

(** [bool ossimShorelineUtil::initialize(ossimArgumentParser& ap)]: the
    returned flag, the arguments left and the object. *)
Definition initialize (args : list string) (u : ossimShorelineUtil)
  : Result (bool * list string * ossimShorelineUtil) :=
  try! base := chipProcInitializeArgs args u in
  let '(ok, args, u) := base in
  if negb ok then Ok (false, args, u)
  else
    let '(args, kwl) := read_options (args, m_kwl u) in
    try! rest := processRemainingArgs args (set_kwl kwl u) in
    let '(args, u) := rest in
    Ok (true, args, u).

End Members.
End CommandLine.

(** The keys [initialize(ossimArgumentParser&)] may write. *)
Definition option_keys : list string :=
  [ ALGORITHM_KW; COLOR_CODING_KW; DO_EDGE_DETECT_KW; SENSOR_ID_KW;
    SMOOTHING_KW; THRESHOLD_KW; TOLERANCE_KW; OUTPUT_FILE_KW ].

(** ** Further notions for the properties below *)

(** The ten parameters of the classifier agree. *)
Definition same_parameters (u u' : ossimShorelineUtil) : Prop :=
  m_waterValue u' = m_waterValue u
  /\ m_marginalValue u' = m_marginalValue u
  /\ m_landValue u' = m_landValue u
  /\ m_sensor u' = m_sensor u
  /\ m_threshold u' = m_threshold u
  /\ m_tolerance u' = m_tolerance u
  /\ m_algorithm u' = m_algorithm u
  /\ m_skipThreshold u' = m_skipThreshold u
  /\ m_smoothing u' = m_smoothing u
  /\ m_doEdgeDetect u' = m_doEdgeDetect u.

(** Assignment to [m_procChain]. *)
Definition set_procChain (chain : list ChainSource) (u : ossimShorelineUtil)
  : ossimShorelineUtil :=
  {| m_waterValue := m_waterValue u;
     m_marginalValue := m_marginalValue u;
     m_landValue := m_landValue u;
     m_sensor := m_sensor u;
     m_threshold := m_threshold u;
     m_tolerance := m_tolerance u;
     m_algorithm := m_algorithm u;
     m_skipThreshold := m_skipThreshold u;
     m_smoothing := m_smoothing u;
     m_doEdgeDetect := m_doEdgeDetect u;
     m_vectorFilename := m_vectorFilename u;
     m_productFilename := m_productFilename u;
     m_kwl := m_kwl u;
     m_imgLayers := m_imgLayers u;
     m_procChain := chain;
     m_geom := m_geom u;
     m_aoiViewRect := m_aoiViewRect u;
     m_aoiGroundRect := m_aoiGroundRect u;
     m_consoleStream := m_consoleStream u |}.

Definition is_smoother (s : ChainSource) : bool :=
  match s with ImageGaussianFilter _ => true | _ => false end.

Definition is_combiner (s : ChainSource) : bool :=
  match s with EquationCombiner _ _ _ => true | _ => false end.

(** The inputs of a table never decrease from one control point to the
    next. *)
Fixpoint inputs_ascend (lut : list (Q * Q)) : Prop :=
  match lut with
  | p :: (q :: _) as rest => (fst p <= fst q)%Q /\ inputs_ascend rest
  | _ => True
  end.

(** ** Sample command lines *)

Module CommandLineSamples.

(** The arguments before the first occurrence of [flag], and those after
    it. *)
Fixpoint find_option (flag : string) (args : list string)
  : option (list string * list string) :=
  match args with
  | [] => None
  | a :: rest =>
      if (a =? flag)%string then Some ([], rest)
      else
        match find_option flag rest with
        | Some (before, after) => Some (a :: before, after)
        | None => None
        end
  end.

(** A parser that takes an option where it first occurs, with as many of
    the following arguments as it has parameters, and a base class that
    accepts every command line and leaves the rest alone. *)
Definition parser : ArgumentParserEnv :=
  {| ap_read0 := fun name args =>
       match find_option name args with
       | Some (before, after) => Some (before ++ after)%list
       | None => None
       end;
     ap_read1 := fun name args =>
       match find_option name args with
       | Some (before, v :: after) => Some (v, (before ++ after)%list)
       | _ => None
       end;
     ap_read3 := fun name args =>
       match find_option name args with
       | Some (before, v1 :: v2 :: v3 :: after) =>
           Some (v1, v2, v3, (before ++ after)%list)
       | _ => None
       end;
     chipProcInitializeArgs := fun args u => Ok (true, args, u);
     processRemainingArgs := fun args u => Ok (args, u) |}.

(** The same with a base class that declines. *)
Definition declining : ArgumentParserEnv :=
  {| ap_read0 := ap_read0 (ArgumentParserEnv := parser);
     ap_read1 := ap_read1 (ArgumentParserEnv := parser);
     ap_read3 := ap_read3 (ArgumentParserEnv := parser);
     chipProcInitializeArgs := fun args u => Ok (false, args, u);
     processRemainingArgs := fun args u => Ok (args, u) |}.

Definition command_line : list string :=
  [ "--threshold"; "0.6"; "--color-coding"; "200"; "100"; "10";
    "--algorithm"; "awei"; "out.json" ].

End CommandLineSamples.

(** ** More sample objects *)

Module MoreSamples.

(** Keyword lists with one keyword each. *)
Definition upper_case_algorithm : gmap string string :=
  Kwl.add ALGORITHM_KW "NDWI" ∅.

Definition two_colors : gmap string string :=
  Kwl.add COLOR_CODING_KW "255 128" ∅.

Definition skip_list : gmap string string :=
  Kwl.add THRESHOLD_KW "X" ∅.

Definition named_output : gmap string string :=
  Kwl.add OUTPUT_FILE_KW "coast.json" ∅.

Definition edge_list : gmap string string :=
  Kwl.add DO_EDGE_DETECT_KW "true" ∅.

(** The default run with another sensor. *)
Definition ls7_run : ossimShorelineUtil :=
  {| m_waterValue := m_waterValue Samples.ndwi_run;
     m_marginalValue := m_marginalValue Samples.ndwi_run;
     m_landValue := m_landValue Samples.ndwi_run;
     m_sensor := "ls7";
     m_threshold := m_threshold Samples.ndwi_run;
     m_tolerance := m_tolerance Samples.ndwi_run;
     m_algorithm := m_algorithm Samples.ndwi_run;
     m_skipThreshold := m_skipThreshold Samples.ndwi_run;
     m_smoothing := m_smoothing Samples.ndwi_run;
     m_doEdgeDetect := m_doEdgeDetect Samples.ndwi_run;
     m_vectorFilename := m_vectorFilename Samples.ndwi_run;
     m_productFilename := m_productFilename Samples.ndwi_run;
     m_kwl := m_kwl Samples.ndwi_run;
     m_imgLayers := m_imgLayers Samples.ndwi_run;
     m_procChain := m_procChain Samples.ndwi_run;
     m_geom := m_geom Samples.ndwi_run;
     m_aoiViewRect := m_aoiViewRect Samples.ndwi_run;
     m_aoiGroundRect := m_aoiGroundRect Samples.ndwi_run;
     m_consoleStream := m_consoleStream Samples.ndwi_run |}.

(** The geometry of the sample runs. *)
Definition geometry : ossimImageGeometry :=
  {| geom_projection := 0; geom_imageSize := (64, 64)%Z |}.

Definition small_tile : ossimIrect :=
  {| ul_x := 8; ul_y := 8; lr_x := 15; lr_y := 23 |}.

(** A potrace utility whose [initialize] throws, and an environment that
    holds it. *)
Definition failing_potrace : ossimUtility :=
  {| util_initialize := fun _ => Throw (BaseException "potrace");
     util_execute := fun _ _ w => Ok (true, w) |}.

Definition with_failing_plugin : ChipProcEnv :=
  Samples.environment (H := referenceStrings) 2 (Some failing_potrace).





(** A keyword list with a zero tolerance, the threshold one half and three
    different colour codes, and the object [initialize] makes of it. *)
Definition midpoint_list : gmap string string :=
  Kwl.add COLOR_CODING_KW "254 127 0"
    (Kwl.add TOLERANCE_KW "0" (Kwl.add THRESHOLD_KW "0.5" ∅)).

Definition midpoint_loaded : ossimShorelineUtil :=
  Samples.outcome
    (Shoreline.initialize (strOps := referenceStrings)
       (env := Samples.standalone) (OtherKwl midpoint_list) Samples.fresh)
    Samples.fresh.

(** A pixel whose two samples are whole numbers below 2^24 with sum 2^24,
    and its NDWI index 1/2 + 2^-24: the single-precision number next above
    one half (mantissa 8388609, exponent -24). *)
Definition midpoint_pixel : list Q := [8388609%Q; 8388607%Q].

Definition midpoint_index : Q := 8388609 # 16777216.

End MoreSamples.

(** * Properties *)

Open Scope list_scope.

(** ** Chain construction *)

Section ChainConstruction.

Context {strOps : ossimStringOps}.

(** The loop of [initLandsat8] copies a window of the layer list. *)
Lemma push_layers_window (imgLayers : list ImageLayer) (todo i : nat)
    (acc : list ImageLayer) :
  (i + todo <= length imgLayers)%nat ->
  Shoreline.push_layers imgLayers i todo acc
  = acc ++ take todo (drop i imgLayers).
Proof.
  revert i acc. induction todo as [|todo IH]; intros i acc Hlen; simpl.
  - now rewrite app_nil_r.
  - destruct (lookup_lt_is_Some_2 imgLayers i) as [l Hl]; [lia|].
    rewrite Hl, IH by lia.
    rewrite (drop_S _ _ _ Hl). simpl. now rewrite <- app_assoc.
Qed.

Lemma push_layers_take (imgLayers : list ImageLayer) (n : nat) :
  (n <= length imgLayers)%nat ->
  Shoreline.push_layers imgLayers 0 n [] = take n imgLayers.
Proof.
  intros Hn. rewrite push_layers_window by lia. now rewrite drop_0.
Qed.

(** [initLandsat8] with enough layers. *)
Lemma initLandsat8_enough (u : ossimShorelineUtil) :
  (Shoreline.reqdNumInputs (m_algorithm u) <= length (m_imgLayers u))%nat ->
  Shoreline.initLandsat8 u
  = Ok (chain_add
          (EquationCombiner
             (take (Shoreline.reqdNumInputs (m_algorithm u)) (m_imgLayers u))
             OSSIM_FLOAT (Shoreline.equationSpec (m_algorithm u))) u).
Proof.
  intros Hn. unfold Shoreline.initLandsat8.
  destruct (Nat.ltb_spec (length (m_imgLayers u))
              (Shoreline.reqdNumInputs (m_algorithm u))) as [Hlt|_]; [lia|].
  now rewrite push_layers_take.
Qed.

(** [initLandsat8] with too few. *)
Lemma initLandsat8_short (u : ossimShorelineUtil) :
  (length (m_imgLayers u) < Shoreline.reqdNumInputs (m_algorithm u))%nat ->
  Shoreline.initLandsat8 u
  = Throw (TooFewInputImages 333
             (Shoreline.reqdNumInputs (m_algorithm u))
             (length (m_imgLayers u))).
Proof.
  intros Hn. unfold Shoreline.initLandsat8.
  destruct (Nat.ltb_spec (length (m_imgLayers u))
              (Shoreline.reqdNumInputs (m_algorithm u))) as [_|Hge];
    [reflexivity | lia].
Qed.

(** Adding a stage leaves the parameters alone. *)
Lemma later_stages_chain_add (src : ChainSource) (u : ossimShorelineUtil) :
  later_stages (chain_add src u) = later_stages u.
Proof. reflexivity. Qed.

(** What a successful [initProcessingChain] leaves in the chain. *)
Lemma initProcessingChain_chain (u u' : ossimShorelineUtil) :
  Shoreline.initProcessingChain u = Ok u' ->
  m_procChain u'
  = m_procChain u
    ++ EquationCombiner
         (take (Shoreline.reqdNumInputs (m_algorithm u)) (m_imgLayers u))
         OSSIM_FLOAT (Shoreline.equationSpec (m_algorithm u))
       :: later_stages u.
Proof.
  unfold Shoreline.initProcessingChain.
  destruct (grect_hasNans _ || irect_hasNans _); [discriminate|].
  destruct (m_sensor u =? "ls8")%string; [|discriminate].
  destruct (Nat.lt_ge_cases (length (m_imgLayers u))
              (Shoreline.reqdNumInputs (m_algorithm u))) as [Hlt|Hge].
  - rewrite initLandsat8_short by exact Hlt. discriminate.
  - rewrite initLandsat8_enough by exact Hge.
    intros Heq. injection Heq as <-. unfold later_stages. cbn.
    destruct (m_skipThreshold u); cbn;
      destruct (Qltb 0 (m_smoothing u)); cbn;
      destruct (m_doEdgeDetect u); cbn;
      rewrite <- ?app_assoc; reflexivity.
Qed.

End ChainConstruction.

Section ChainClaims.

Context {strOps : ossimStringOps}.

Lemma initProcessingChain_ok (u : ossimShorelineUtil) :
  grect_hasNans (m_aoiGroundRect u) = false ->
  irect_hasNans (m_aoiViewRect u) = false ->
  m_sensor u = "ls8" ->
  (Shoreline.reqdNumInputs (m_algorithm u) <= length (m_imgLayers u))%nat ->
  exists u', Shoreline.initProcessingChain u = Ok u'.
Proof.
  intros Hg Hv Hs Hn. unfold Shoreline.initProcessingChain.
  rewrite Hg, Hv, Hs, initLandsat8_enough by exact Hn.
  cbn [orb bind String.eqb Ascii.eqb Bool.eqb].
  eexists. reflexivity.
Qed.


(** C6.  With fewer layers than the algorithm requires, [initLandsat8]
    and with it [initProcessingChain] throw the "Expected ... input
    images" exception, of kind InsufficientInputs; no chain is built. *)
Theorem C6_insufficient_inputs (u : ossimShorelineUtil) :
  (length (m_imgLayers u) < Shoreline.reqdNumInputs (m_algorithm u))%nat ->
  grect_hasNans (m_aoiGroundRect u) = false ->
  irect_hasNans (m_aoiViewRect u) = false ->
  m_sensor u = "ls8" ->
  exists e,
    e = TooFewInputImages 333 (Shoreline.reqdNumInputs (m_algorithm u))
          (length (m_imgLayers u))
    /\ Shoreline.initLandsat8 u = Throw e
    /\ Shoreline.initProcessingChain u = Throw e
    /\ errorKind e = InsufficientInputs
    /\ Shoreline.reqdNumInputs NDWI = 2%nat
    /\ Shoreline.reqdNumInputs AWEI = 4%nat.
Proof.
  intros Hlt Hg Hv Hs. eexists. split; [reflexivity|].
  repeat split.
  - now apply initLandsat8_short.
  - unfold Shoreline.initProcessingChain.
    rewrite Hg, Hv, Hs, initLandsat8_short by exact Hlt. reflexivity.
Qed.

(** C10.  With more layers than the algorithm requires, construction
    succeeds and the equation combiner is connected to the first
    [reqdNumInputs] layers, in order; the others are not connected. *)
Theorem C10_extra_sources_ignored (u : ossimShorelineUtil) :
  (Shoreline.reqdNumInputs (m_algorithm u) < length (m_imgLayers u))%nat ->
  grect_hasNans (m_aoiGroundRect u) = false ->
  irect_hasNans (m_aoiViewRect u) = false ->
  m_sensor u = "ls8" ->
  exists inputs extra u',
    m_imgLayers u = inputs ++ extra
    /\ length inputs = Shoreline.reqdNumInputs (m_algorithm u)
    /\ extra <> []
    /\ Shoreline.initLandsat8 u
       = Ok (chain_add
               (EquationCombiner inputs OSSIM_FLOAT
                  (Shoreline.equationSpec (m_algorithm u))) u)
    /\ Shoreline.initProcessingChain u = Ok u'
    /\ m_procChain u'
       = m_procChain u
         ++ EquationCombiner inputs OSSIM_FLOAT
              (Shoreline.equationSpec (m_algorithm u))
            :: later_stages u.
Proof.
  intros Hlt Hg Hv Hs.
  destruct (initProcessingChain_ok u Hg Hv Hs) as [u' Hu']; [lia|].
  exists (take (Shoreline.reqdNumInputs (m_algorithm u)) (m_imgLayers u)),
         (drop (Shoreline.reqdNumInputs (m_algorithm u)) (m_imgLayers u)), u'.
  repeat split.
  - now rewrite take_drop.
  - rewrite length_take. lia.
  - intros Hnil. apply (f_equal length) in Hnil.
    rewrite length_drop in Hnil. cbn in Hnil. lia.
  - apply initLandsat8_enough. lia.
  - exact Hu'.
  - now apply initProcessingChain_chain.
Qed.

(** C4, as the code has it.  In edge-detect mode the edge filter is the
    last stage of the chain and the only edge filter; the threshold
    classifier is among the stages before it exactly when thresholding is
    not skipped. *)
Theorem C4_edge_filter_after_classifier (u u' : ossimShorelineUtil) :
  m_doEdgeDetect u = true ->
  Shoreline.initProcessingChain u = Ok u' ->
  exists stages,
    m_procChain u' = m_procChain u ++ stages ++ [EdgeFilter "roberts"]
    /\ existsb is_edge_filter stages = false
    /\ existsb is_classifier stages = negb (m_skipThreshold u).
Proof.
  intros Hedge Hinit. apply initProcessingChain_chain in Hinit.
  rewrite Hinit. unfold later_stages. rewrite Hedge.
  generalize (Shoreline.remapper_kwl u); intros lut_kwl.
  exists (EquationCombiner
            (take (Shoreline.reqdNumInputs (m_algorithm u)) (m_imgLayers u))
            OSSIM_FLOAT (Shoreline.equationSpec (m_algorithm u))
          :: (if m_skipThreshold u then [] else [BandLutFilter lut_kwl])
          ++ (if Qltb 0 (m_smoothing u)
              then [ImageGaussianFilter (m_smoothing u)] else [])).
  split.
  - now rewrite <- app_comm_cons, <- app_assoc.
  - destruct (m_skipThreshold u), (Qltb 0 (m_smoothing u));
      split; reflexivity.
Qed.

End ChainClaims.

(** ** Chip requests *)

Section ChipRequests.

Context {env : ChipProcEnv}.

(** A request overwrites whatever an earlier request left in the object. *)
Lemma getChip_after_getChip (r r' : ossimIrect) (u : ossimShorelineUtil) :
  Shoreline.getChip r (snd (Shoreline.getChip r' u)) = Shoreline.getChip r u.
Proof.
  unfold Shoreline.getChip. destruct (m_geom u) as [g|] eqn:Hg; cbn.
  - reflexivity.
  - now rewrite Hg.
Qed.

(** C8.  The tile returned for a region does not depend on the requests
    served before it: after any run of requests, a request for [r]
    returns the tile it would have returned at the start; in particular
    asking twice gives the same tile. *)
Theorem C8_getChip_idempotent (requests : list ossimIrect) (r : ossimIrect)
    (u : ossimShorelineUtil) :
  fst (Shoreline.getChip r (after_requests requests u))
  = fst (Shoreline.getChip r u)
  /\ fst (Shoreline.getChip r (snd (Shoreline.getChip r u)))
     = fst (Shoreline.getChip r u).
Proof.
  split; [|now rewrite getChip_after_getChip].
  unfold after_requests.
  induction requests as [|r' requests IH] using rev_ind; [reflexivity|].
  rewrite fold_left_app. cbn [fold_left].
  now rewrite getChip_after_getChip.
Qed.

End ChipRequests.

(** ** Execution *)

Section Execution.

Context {strOps : ossimStringOps} {env : ChipProcEnv}.

(** C3, as the code has it.  Out of edge-detect mode and without the
    potrace plugin, [execute] returns false whatever the base class
    reported; the files are those the base class left, and one warning
    naming the raster product is added to the notifications. *)
Theorem C3_missing_plugin_returns_false
    (u u1 : ossimShorelineUtil) (w w1 : World) (status : bool) :
  chipProcExecute u w = Ok (status, u1, w1) ->
  m_doEdgeDetect u1 = false ->
  createUtility "potrace" = None ->
  exists w2,
    Shoreline.execute u w = Ok (false, u1, w2)
    /\ files w2 = files w1
    /\ notifications w2
       = notifications w1
         ++ [(ossimNotifyLevel_WARN, Shoreline.potrace_missing_msg u1)].
Proof.
  intros Hbase Hedge Hnone. unfold Shoreline.execute.
  rewrite Hbase. cbn [bind]. rewrite Hedge, Hnone. cbn [negb].
  eexists. repeat split.
Qed.

(** C9.  Out of edge-detect mode and with the plugin in the registry,
    [execute] returns the status of the base class; the flag that the
    plugin's [execute] returns has no part in it. *)
Theorem C9_plugin_status_dropped
    (u u1 : ossimShorelineUtil) (w w1 w2 : World) (status : bool)
    (potrace : ossimUtility) (vectorized : bool) :
  chipProcExecute u w = Ok (status, u1, w1) ->
  m_doEdgeDetect u1 = false ->
  createUtility "potrace" = Some potrace ->
  util_initialize potrace (Shoreline.potrace_kwl u1) = Ok tt ->
  util_execute potrace (m_consoleStream u1) (Shoreline.potrace_kwl u1) w1
  = Ok (vectorized, w2) ->
  Shoreline.execute u w = Ok (status, u1, w2).
Proof.
  intros Hbase Hedge Hsome Hinit Hrun. unfold Shoreline.execute.
  rewrite Hbase. cbn [bind]. rewrite Hedge, Hsome. cbn [negb].
  rewrite Hinit. cbn [bind]. rewrite Hrun. reflexivity.
Qed.

End Execution.

(** ** Configuration load *)

Section ConfigurationLoad.

Context {strOps : ossimStringOps} {env : ChipProcEnv}.

(** C5, as the code has it.  [initialize] checks the algorithm name and
    the number of colour codes and nothing else: once these two are
    accepted it reaches the base class with the threshold and tolerance
    texts converted and stored as they are, whatever their values. *)
Theorem C5_threshold_tolerance_unchecked
    (kwl : KwlRef) (u : ossimShorelineUtil) :
  algorithm_accepted (deref kwl u) ->
  color_coding_accepted (deref kwl u) ->
  exists u',
    Shoreline.initialize kwl u = chipProcInitialize kwl u'
    /\ m_threshold u'
       = (let value := Kwl.findKey (deref kwl u) THRESHOLD_KW in
          if empty value || (value =? "X")%string
          then m_threshold u else toDouble value)
    /\ m_tolerance u'
       = (let value := Kwl.findKey (deref kwl u) TOLERANCE_KW in
          if empty value then m_tolerance u else toDouble value).
Proof.
  unfold algorithm_accepted, color_coding_accepted.
  intros Halg Hcol. unfold Shoreline.initialize. cbv zeta in *.
  set (k := deref kwl u) in *.
  set (threshold := Kwl.findKey k THRESHOLD_KW).
  set (tolerance := Kwl.findKey k TOLERANCE_KW).
  assert (Hcolors :
    exists c, (if negb (empty (Kwl.findKey k COLOR_CODING_KW))
               then match split (Kwl.findKey k COLOR_CODING_KW) " " with
                    | [v0; v1; v2] => Ok (toUInt8 v0, toUInt8 v1, toUInt8 v2)
                    | _ => Throw (UnexpectedValueCount 182 COLOR_CODING_KW)
                    end
               else Ok (m_waterValue u, m_marginalValue u, m_landValue u))
              = Ok c).
  { destruct Hcol as [-> | Hlen]; [eexists; reflexivity|].
    destruct (empty _); [eexists; reflexivity|]. cbn [negb].
    destruct (split _ _) as [|v0 [|v1 [|v2 [|]]]]; try discriminate.
    eexists; reflexivity. }
  destruct Hcolors as [[[water marginal] land] ->].
  assert (Halgorithm :
    exists a, (if negb (empty (Kwl.findKey k ALGORITHM_KW))
               then if (Kwl.findKey k ALGORITHM_KW =? "ndwi")%string
                    then Ok NDWI
                    else if (Kwl.findKey k ALGORITHM_KW =? "awei")%string
                         then Ok AWEI
                         else Throw (BadKeywordValue 164 ALGORITHM_KW)
               else Ok (m_algorithm u))
              = Ok a).
  { destruct Halg as [-> | [-> | ->]]; eexists; reflexivity. }
  destruct Halgorithm as [algorithm ->].
  cbn [bind].
  destruct (negb (getBoolKeywordValue k (m_doEdgeDetect u) DO_EDGE_DETECT_KW));
    [destruct (Kwl.find k OUTPUT_FILE_KW =? DUMMY_OUTPUT_FILENAME)%string|];
    (destruct (empty threshold); cbn [negb orb];
     [|destruct (threshold =? "X")%string]);
    (eexists; split; [reflexivity|]);
    cbn [m_threshold m_tolerance]; destruct (empty tolerance); split; reflexivity.
Qed.

End ConfigurationLoad.

(** ** The threshold classifier *)

Section Classifier.

Context {strOps : ossimStringOps}.

Local Open Scope Q_scope.

Lemma lookup_hit (p q : Q * Q) (rest : list (Q * Q)) (v : Q) :
  fst p <= v -> v <= fst q ->
  BandLut.lookup (p :: q :: rest) v = Some (BandLut.interpolate p q v).
Proof.
  intros Hp Hq. cbn [BandLut.lookup].
  apply Qle_bool_iff in Hp, Hq. now rewrite Hp, Hq.
Qed.

Lemma lookup_miss (p q : Q * Q) (rest : list (Q * Q)) (v : Q) :
  v < fst p \/ fst q < v ->
  BandLut.lookup (p :: q :: rest) v = BandLut.lookup (q :: rest) v.
Proof.
  intros Hout. cbn [BandLut.lookup].
  destruct (Qle_bool (fst p) v) eqn:Hp; [|reflexivity].
  destruct (Qle_bool v (fst q)) eqn:Hq; [|reflexivity].
  apply Qle_bool_iff in Hp, Hq. lra.
Qed.

Lemma interpolate_flat (p q : Q * Q) (v : Q) :
  snd p == snd q -> BandLut.interpolate p q v == snd p.
Proof.
  intros Heq. unfold BandLut.interpolate, Qdiv. rewrite Heq. ring.
Qed.


Lemma interpolate_right (p q : Q * Q) (v : Q) :
  fst p < fst q -> v == fst q -> BandLut.interpolate p q v == snd q.
Proof.
  intros Hlt Heq. unfold BandLut.interpolate. rewrite Heq.
  field. lra.
Qed.

Lemma interpolate_same (p p' q q' : Q * Q) (v : Q) :
  fst p == fst p' -> snd p == snd p' ->
  fst q == fst q' -> snd q == snd q' ->
  BandLut.interpolate p q v == BandLut.interpolate p' q' v.
Proof.
  intros H1 H2 H3 H4. unfold BandLut.interpolate.
  now rewrite H1, H2, H3, H4.
Qed.

(** Tables that agree point by point agree at every input. *)
Lemma lookup_same_table (t1 t2 : list (Q * Q)) (v : Q) :
  same_table t1 t2 ->
  match BandLut.lookup t1 v, BandLut.lookup t2 v with
  | Some y1, Some y2 => y1 == y2
  | None, None => True
  | _, _ => False
  end.
Proof.
  intros Hsame. induction Hsame as [|p p' l1 l2 [Hx Hy] Htl IH]; [exact I|].
  destruct Htl as [|q q' l1 l2 [Hx' Hy'] Htl]; [exact I|].
  cbn [BandLut.lookup] in *.
  replace (Qle_bool (fst p') v) with (Qle_bool (fst p) v)
    by (apply Qleb_comp; [exact Hx | reflexivity]).
  replace (Qle_bool v (fst q')) with (Qle_bool v (fst q))
    by (apply Qleb_comp; [reflexivity | exact Hx']).
  destruct (Qle_bool (fst p) v && Qle_bool v (fst q)).
  - now apply interpolate_same.
  - exact IH.
Qed.

Lemma maps_to_same_table (t1 t2 : list (Q * Q)) (v y : Q) :
  same_table t1 t2 -> BandLut.maps_to t2 v y -> BandLut.maps_to t1 v y.
Proof.
  intros Hsame [y2 [Hlook Hy]].
  pose proof (lookup_same_table t1 t2 v Hsame) as H.
  rewrite Hlook in H. unfold BandLut.maps_to.
  destruct (BandLut.lookup t1 v) as [y1|]; [|easy].
  exists y1. split; [reflexivity|]. now rewrite H.
Qed.

Lemma maps_to_unique (t : list (Q * Q)) (v y y' : Q) :
  BandLut.maps_to t v y -> BandLut.maps_to t v y' -> y == y'.
Proof.
  intros [a [Ha Hay]] [b [Hb Hby]]. rewrite Ha in Hb.
  injection Hb as <-. now rewrite <- Hay, <- Hby.
Qed.

(** The table loaded from [remapper_kwl], entry by entry. *)
Lemma classifier_lut_banded (u : ossimShorelineUtil) :
  Qeq_bool (m_tolerance u) 0 = false ->
  classifier_lut u =
    [ (toDouble "0.0", toDouble (toStringU8 (m_landValue u)));
      (toDouble (toStringF64 (m_threshold u - m_tolerance u)),
       toDouble (toStringU8 (m_landValue u)));
      (toDouble (toStringF64 (m_threshold u - m_tolerance u + FLT_EPSILON)),
       toDouble (toStringU8 (m_marginalValue u)));
      (toDouble (toStringF64 (m_threshold u + m_tolerance u)),
       toDouble (toStringU8 (m_marginalValue u)));
      (toDouble (toStringF64 (m_threshold u + m_tolerance u + FLT_EPSILON)),
       toDouble (toStringU8 (m_waterValue u)));
      (toDouble "1.0", toDouble (toStringU8 (m_waterValue u))) ].
Proof.
  intros Htol. unfold classifier_lut, Shoreline.remapper_kwl. rewrite Htol.
  generalize (toStringF64 (m_threshold u - m_tolerance u)),
    (toStringF64 (m_threshold u - m_tolerance u + FLT_EPSILON)),
    (toStringF64 (m_threshold u + m_tolerance u)),
    (toStringF64 (m_threshold u + m_tolerance u + FLT_EPSILON)),
    (toStringU8 (m_landValue u)), (toStringU8 (m_marginalValue u)),
    (toStringU8 (m_waterValue u)).
  intros. vm_compute. reflexivity.
Qed.

Lemma classifier_lut_collapsed (u : ossimShorelineUtil) :
  Qeq_bool (m_tolerance u) 0 = true ->
  classifier_lut u =
    [ (toDouble "0.0", toDouble (toStringU8 (m_landValue u)));
      (toDouble (toStringF64 (m_threshold u - m_tolerance u)),
       toDouble (toStringU8 (m_landValue u)));
      (toDouble (toStringF64 (m_threshold u - m_tolerance u + FLT_EPSILON)),
       toDouble (toStringU8 (m_waterValue u)));
      (toDouble "1.0", toDouble (toStringU8 (m_waterValue u))) ].
Proof.
  intros Htol. unfold classifier_lut, Shoreline.remapper_kwl. rewrite Htol.
  generalize (toStringF64 (m_threshold u - m_tolerance u)),
    (toStringF64 (m_threshold u - m_tolerance u + FLT_EPSILON)),
    (toStringF64 (m_threshold u + m_tolerance u)),
    (toStringF64 (m_threshold u + m_tolerance u + FLT_EPSILON)),
    (toStringU8 (m_landValue u)), (toStringU8 (m_marginalValue u)),
    (toStringU8 (m_waterValue u)).
  intros. vm_compute. reflexivity.
Qed.

Lemma remapper_mode (u : ossimShorelineUtil) :
  Shoreline.remapper_kwl u !! "mode" = Some "interpolated".
Proof.
  unfold Shoreline.remapper_kwl.
  generalize (toStringF64 (m_threshold u - m_tolerance u)),
    (toStringF64 (m_threshold u - m_tolerance u + FLT_EPSILON)),
    (toStringF64 (m_threshold u + m_tolerance u)),
    (toStringF64 (m_threshold u + m_tolerance u + FLT_EPSILON)),
    (toStringU8 (m_landValue u)), (toStringU8 (m_marginalValue u)),
    (toStringU8 (m_waterValue u)).
  intros. destruct (Qeq_bool (m_tolerance u) 0); vm_compute; reflexivity.
Qed.

Lemma classifier_same_banded (u : ossimShorelineUtil) :
  prints_exactly u ->
  Qeq_bool (m_tolerance u) 0 = false ->
  same_table (classifier_lut u) (spec_table_banded u).
Proof.
  intros [] Htol. rewrite classifier_lut_banded by exact Htol.
  unfold spec_table_banded, banded_table, same_table.
  repeat (constructor; [split; cbn [fst snd]; assumption|]).
  constructor.
Qed.

Lemma classifier_same_collapsed (u : ossimShorelineUtil) :
  prints_exactly u ->
  Qeq_bool (m_tolerance u) 0 = true ->
  same_table (classifier_lut u) (spec_table_collapsed u).
Proof.
  intros [] Htol. rewrite classifier_lut_collapsed by exact Htol.
  unfold spec_table_collapsed, collapsed_table, same_table.
  repeat (constructor; [split; cbn [fst snd]; assumption|]).
  constructor.
Qed.

End Classifier.

(** ** The two tables of the spec, point by point *)

Section Tables.

Local Open Scope Q_scope.

Variables land marginal water a b c d : Q.

Local Abbreviation banded := (banded_table land marginal water a b c d).
Local Abbreviation collapsed := (collapsed_table land water a b).

Ltac miss := rewrite lookup_miss by (cbn [fst snd]; lra).
Ltac hit := rewrite lookup_hit by (cbn [fst snd]; lra).
Ltac found := eexists; split; [reflexivity|].

Lemma maps_to_eq (t : list (Q * Q)) (v y y' : Q) :
  BandLut.maps_to t v y -> y == y' -> BandLut.maps_to t v y'.
Proof.
  intros [z [Hz Hzy]] Heq. exists z. split; [exact Hz|]. now rewrite Hzy.
Qed.

Lemma banded_land (v : Q) :
  0 <= v <= a -> BandLut.maps_to banded v land.
Proof.
  intros Hv. unfold BandLut.maps_to, banded_table. hit. found.
  now apply interpolate_flat.
Qed.

Lemma banded_marginal (v : Q) :
  a < b -> b <= v <= c -> BandLut.maps_to banded v marginal.
Proof.
  intros Hab Hv. unfold BandLut.maps_to, banded_table. miss.
  destruct (Qlt_le_dec b v) as [Hlt|Hle].
  - miss. hit. found. now apply interpolate_flat.
  - hit. found. apply interpolate_right; cbn [fst snd]; lra.
Qed.

Lemma banded_water (v : Q) :
  a < d -> b < d -> c < d -> d <= v <= 1 -> BandLut.maps_to banded v water.
Proof.
  intros Had Hbd Hcd Hv. unfold BandLut.maps_to, banded_table. miss. miss. miss.
  destruct (Qlt_le_dec d v) as [Hlt|Hle].
  - miss. hit. found. now apply interpolate_flat.
  - hit. found. apply interpolate_right; cbn [fst snd]; lra.
Qed.

Lemma banded_rise (v : Q) :
  a < v < b ->
  BandLut.maps_to banded v (land + (v - a) / (b - a) * (marginal - land)).
Proof.
  intros Hv. unfold BandLut.maps_to, banded_table. miss. hit. found.
  unfold BandLut.interpolate. cbn [fst snd]. field. lra.
Qed.

Lemma banded_rise_water (v : Q) :
  b <= c -> a < c -> c < v < d ->
  BandLut.maps_to banded v
    (marginal + (v - c) / (d - c) * (water - marginal)).
Proof.
  intros Hbc Hac Hv. unfold BandLut.maps_to, banded_table. miss. miss. miss.
  hit. found. unfold BandLut.interpolate. cbn [fst snd]. field. lra.
Qed.

Lemma collapsed_land (v : Q) :
  0 <= v <= a -> BandLut.maps_to collapsed v land.
Proof.
  intros Hv. unfold BandLut.maps_to, collapsed_table. hit. found.
  now apply interpolate_flat.
Qed.

Lemma collapsed_water (v : Q) :
  a < b -> b <= v <= 1 -> BandLut.maps_to collapsed v water.
Proof.
  intros Hab Hv. unfold BandLut.maps_to, collapsed_table. miss.
  destruct (Qlt_le_dec b v) as [Hlt|Hle].
  - miss. hit. found. now apply interpolate_flat.
  - hit. found. apply interpolate_right; cbn [fst snd]; lra.
Qed.



End Tables.

(** ** The classifier of a configured object *)

Section ClassifierClaims.

Context {strOps : ossimStringOps}.

Local Open Scope Q_scope.

Ltac breakpoints := unfold lo2, lo1, hi2, hi1, FLT_EPSILON in *.

(** C1.  When thresholding is not skipped the chain holds a band LUT
    filter in mode "interpolated", loaded from [remapper_kwl]; its table
    sends [0, lo1] to the land code, [lo2, hi1] to the marginal code and
    [hi2, 1] to the water code, and for a positive tolerance it is the
    six-point table over lo1, lo2, hi1, hi2, rising linearly on
    (lo1, lo2) and on (hi1, hi2). *)
Theorem C1_threshold_classifier_lut (u u' : ossimShorelineUtil) :
  m_skipThreshold u = false ->
  Shoreline.initProcessingChain u = Ok u' ->
  prints_exactly u ->
  0 <= m_tolerance u ->
  (exists before after,
      m_procChain u'
      = before ++ BandLutFilter (Shoreline.remapper_kwl u) :: after)
  /\ Shoreline.remapper_kwl u !! "mode" = Some "interpolated"
  /\ (forall v, 0 <= v <= lo1 u ->
        BandLut.maps_to (classifier_lut u) v (inject_Z (m_landValue u)))
  /\ (forall v, lo2 u <= v <= hi1 u ->
        BandLut.maps_to (classifier_lut u) v (inject_Z (m_marginalValue u)))
  /\ (forall v, hi2 u <= v <= 1 ->
        BandLut.maps_to (classifier_lut u) v (inject_Z (m_waterValue u)))
  /\ (0 < m_tolerance u ->
      same_table (classifier_lut u) (spec_table_banded u)
      /\ (forall v, lo1 u < v < lo2 u ->
            BandLut.maps_to (classifier_lut u) v
              (inject_Z (m_landValue u)
               + (v - lo1 u) / FLT_EPSILON
                 * (inject_Z (m_marginalValue u) - inject_Z (m_landValue u))))
      /\ (lo2 u <= hi1 u ->
          forall v, hi1 u < v < hi2 u ->
            BandLut.maps_to (classifier_lut u) v
              (inject_Z (m_marginalValue u)
               + (v - hi1 u) / FLT_EPSILON
                 * (inject_Z (m_waterValue u)
                    - inject_Z (m_marginalValue u))))).
Proof.
  intros Hskip Hinit Hprint Htol.
  split.
  { apply initProcessingChain_chain in Hinit. rewrite Hinit.
    unfold later_stages. rewrite Hskip.
    eexists (_ ++ [_]), _. rewrite <- app_assoc. reflexivity. }
  split; [apply remapper_mode|].
  destruct (Qeq_bool (m_tolerance u) 0) eqn:Hz.
  - pose proof (classifier_same_collapsed u Hprint Hz) as Hsame.
    apply Qeq_bool_iff in Hz.
    split; [|split; [|split]].
    + intros v Hv. eapply maps_to_same_table; [exact Hsame|].
      now apply collapsed_land.
    + intros v Hv. exfalso. breakpoints. lra.
    + intros v Hv. eapply maps_to_same_table; [exact Hsame|].
      apply collapsed_water; breakpoints; lra.
    + intros Hpos. lra.
  - pose proof (classifier_same_banded u Hprint Hz) as Hsame.
    apply Qeq_bool_neq in Hz.
    assert (Hpos : 0 < m_tolerance u).
    { destruct (Qlt_le_dec 0 (m_tolerance u)) as [H|H]; [exact H|].
      exfalso. apply Hz. lra. }
    split; [|split; [|split]].
    + intros v Hv. eapply maps_to_same_table; [exact Hsame|].
      now apply banded_land.
    + intros v Hv. eapply maps_to_same_table; [exact Hsame|].
      apply banded_marginal; [breakpoints; lra | exact Hv].
    + intros v Hv. eapply maps_to_same_table; [exact Hsame|].
      apply banded_water; breakpoints; lra.
    + intros _. split; [exact Hsame|]. split.
      * intros v Hv. eapply maps_to_same_table; [exact Hsame|].
        eapply maps_to_eq; [apply banded_rise; exact Hv|].
        breakpoints. field. lra.
      * intros Hband v Hv. eapply maps_to_same_table; [exact Hsame|].
        eapply maps_to_eq;
          [apply banded_rise_water; [exact Hband | breakpoints; lra | exact Hv]|].
        breakpoints. field. lra.
Qed.


End ClassifierClaims.

(** ** The claims at sample inputs *)

Section AtSamples.

Local Open Scope Q_scope.

Lemma C1_witness :
  m_skipThreshold Samples.ndwi_run = false
  /\ Shoreline.initProcessingChain (strOps := referenceStrings)
       Samples.ndwi_run = Ok Samples.ndwi_built
  /\ prints_exactly (H := referenceStrings) Samples.ndwi_run
  /\ 0 <= m_tolerance Samples.ndwi_run
  /\ BandLut.maps_to
       (classifier_lut (H := referenceStrings) Samples.ndwi_run) 0.5
       (inject_Z (m_landValue Samples.ndwi_run))
  /\ BandLut.maps_to
       (classifier_lut (H := referenceStrings) Samples.ndwi_run) 0.55
       (inject_Z (m_marginalValue Samples.ndwi_run))
  /\ BandLut.maps_to
       (classifier_lut (H := referenceStrings) Samples.ndwi_run) 0.6
       (inject_Z (m_waterValue Samples.ndwi_run)).
Proof.
  assert (Hskip : m_skipThreshold Samples.ndwi_run = false) by reflexivity.
  assert (Hinit :
    Shoreline.initProcessingChain (strOps := referenceStrings)
      Samples.ndwi_run = Ok Samples.ndwi_built)
    by (vm_compute; reflexivity).
  assert (Hprint : prints_exactly (H := referenceStrings) Samples.ndwi_run)
    by (constructor; vm_compute; reflexivity).
  assert (Htol : 0 <= m_tolerance Samples.ndwi_run) by (cbn; lra).
  destruct (C1_threshold_classifier_lut (strOps := referenceStrings)
              Samples.ndwi_run Samples.ndwi_built Hskip Hinit Hprint Htol)
    as [_ [_ [Hland [Hmarginal [Hwater _]]]]].
  split; [exact Hskip|]. split; [exact Hinit|].
  split; [exact Hprint|]. split; [exact Htol|].
  split; [|split].
  - apply Hland. unfold lo1. cbn. lra.
  - apply Hmarginal. unfold lo2, lo1, hi1, FLT_EPSILON. cbn. lra.
  - apply Hwater. unfold hi2, hi1, FLT_EPSILON. cbn. lra.
Defined.


(** C3 fails as stated: the base class reports success, the plugin is
    missing, and [execute] returns false; the raster file is there. *)
Lemma C3_counterexample :
  m_doEdgeDetect Samples.ndwi_run = false
  /\ createUtility (ChipProcEnv := Samples.standalone) "potrace" = None
  /\ chipProcExecute (ChipProcEnv := Samples.standalone)
       Samples.ndwi_run Samples.nothing
     = Ok (true, Samples.ndwi_run,
           Samples.raster_written Samples.ndwi_run Samples.nothing)
  /\ Shoreline.execute (env := Samples.standalone)
       Samples.ndwi_run Samples.nothing
     = Ok (false, Samples.ndwi_run,
           ossimNotify ossimNotifyLevel_WARN
             (Shoreline.potrace_missing_msg Samples.ndwi_run)
             (Samples.raster_written Samples.ndwi_run Samples.nothing))
  /\ ~ (exists u1 w1,
          Shoreline.execute (env := Samples.standalone)
            Samples.ndwi_run Samples.nothing
          = Ok (true, u1, w1)).
Proof.
  split; [reflexivity|]. split; [reflexivity|].
  split; [reflexivity|]. split; [reflexivity|].
  intros [u1 [w1 Hrun]]. discriminate Hrun.
Qed.

Lemma C3_witness :
  exists w2,
    Shoreline.execute (env := Samples.standalone)
      Samples.ndwi_run Samples.nothing
    = Ok (false, Samples.ndwi_run, w2)
    /\ files w2
       = files (Samples.raster_written Samples.ndwi_run Samples.nothing)
    /\ notifications w2
       = notifications
           (Samples.raster_written Samples.ndwi_run Samples.nothing)
         ++ [(ossimNotifyLevel_WARN,
              Shoreline.potrace_missing_msg Samples.ndwi_run)].
Proof.
  apply (C3_missing_plugin_returns_false (env := Samples.standalone)
           Samples.ndwi_run Samples.ndwi_run Samples.nothing
           (Samples.raster_written Samples.ndwi_run Samples.nothing) true);
    reflexivity.
Defined.

(** C4 fails as stated: in edge-detect mode with the default threshold
    the chain holds the threshold classifier and, two stages later, the
    edge filter. *)
Lemma C4_counterexample :
  m_doEdgeDetect Samples.edge_run = true
  /\ Shoreline.initProcessingChain (strOps := referenceStrings)
       Samples.edge_run = Ok Samples.edge_built
  /\ m_procChain Samples.edge_built
     = [ EquationCombiner [layer 0; layer 1] OSSIM_FLOAT "in[0]/(in[0]+in[1])";
         BandLutFilter
           (Shoreline.remapper_kwl (strOps := referenceStrings)
              Samples.edge_run);
         ImageGaussianFilter (2 # 10);
         EdgeFilter "roberts" ]
  /\ existsb is_classifier (m_procChain Samples.edge_built)
     && existsb is_edge_filter (m_procChain Samples.edge_built) = true.
Proof. repeat split; vm_compute; reflexivity. Qed.

Lemma C4_witness :
  exists stages,
    m_procChain Samples.edge_built
    = m_procChain Samples.edge_run ++ stages ++ [EdgeFilter "roberts"]
    /\ existsb is_edge_filter stages = false
    /\ existsb is_classifier stages
       = negb (m_skipThreshold Samples.edge_run).
Proof.
  apply (C4_edge_filter_after_classifier (strOps := referenceStrings)
           Samples.edge_run Samples.edge_built).
  - reflexivity.
  - vm_compute; reflexivity.
Defined.

(** C5 fails as stated: a threshold of 1.5 and a tolerance of -0.2 are
    loaded without an exception, and the chain is built on them. *)
Lemma C5_counterexample :
  Shoreline.initialize (strOps := referenceStrings)
    (env := Samples.standalone) (OtherKwl Samples.out_of_range) Samples.fresh
  = Ok Samples.out_of_range_loaded
  /\ m_threshold Samples.out_of_range_loaded == 1.5
  /\ ~ (0 <= m_threshold Samples.out_of_range_loaded <= 1)
  /\ m_tolerance Samples.out_of_range_loaded == - 0.2
  /\ m_tolerance Samples.out_of_range_loaded < 0
  /\ existsb is_classifier (m_procChain Samples.out_of_range_loaded) = true
  /\ ~ (exists e,
          Shoreline.initialize (strOps := referenceStrings)
            (env := Samples.standalone) (OtherKwl Samples.out_of_range)
            Samples.fresh
          = Throw e).
Proof.
  assert (Hload :
    Shoreline.initialize (strOps := referenceStrings)
      (env := Samples.standalone) (OtherKwl Samples.out_of_range) Samples.fresh
    = Ok Samples.out_of_range_loaded)
    by (vm_compute; reflexivity).
  assert (Hthreshold : m_threshold Samples.out_of_range_loaded == 1.5)
    by (vm_compute; reflexivity).
  assert (Htolerance : m_tolerance Samples.out_of_range_loaded == - 0.2)
    by (vm_compute; reflexivity).
  split; [exact Hload|].
  split; [exact Hthreshold|].
  split; [intros [_ Hle]; rewrite Hthreshold in Hle; lra|].
  split; [exact Htolerance|].
  split; [rewrite Htolerance; lra|].
  split; [vm_compute; reflexivity|].
  intros [e He]. rewrite Hload in He. discriminate He.
Qed.

Lemma C5_witness :
  exists u',
    Shoreline.initialize (strOps := referenceStrings)
      (env := Samples.standalone) (OtherKwl Samples.out_of_range)
      Samples.fresh
    = chipProcInitialize (ChipProcEnv := Samples.standalone)
        (OtherKwl Samples.out_of_range) u'
    /\ m_threshold u' = toDouble (ossimStringOps := referenceStrings) "1.5"
    /\ m_tolerance u' = toDouble (ossimStringOps := referenceStrings) "-0.2".
Proof.
  apply (C5_threshold_tolerance_unchecked (strOps := referenceStrings)
           (env := Samples.standalone)
           (OtherKwl Samples.out_of_range) Samples.fresh).
  - left. vm_compute. reflexivity.
  - left. vm_compute. reflexivity.
Defined.

Lemma C6_witness :
  exists e,
    e = TooFewInputImages 333 4 2
    /\ Shoreline.initLandsat8 Samples.awei_short = Throw e
    /\ Shoreline.initProcessingChain (strOps := referenceStrings)
         Samples.awei_short = Throw e
    /\ errorKind e = InsufficientInputs
    /\ Shoreline.reqdNumInputs NDWI = 2%nat
    /\ Shoreline.reqdNumInputs AWEI = 4%nat.
Proof.
  apply (C6_insufficient_inputs (strOps := referenceStrings)
           Samples.awei_short).
  - cbn. lia.
  - reflexivity.
  - reflexivity.
  - reflexivity.
Defined.


(** On the rise the table can meet a marginal code that differs from the
    other two: with threshold one half, tolerance zero and the codes 254,
    127 and 0, the single-precision index half way between lo1 and lo2
    comes out as 127 exactly.  (This rests on breakpoints printed in full,
    as the reference strings do.) *)
Lemma rise_can_meet_marginal_code :
  Shoreline.initialize (strOps := referenceStrings)
    (env := Samples.standalone) (OtherKwl MoreSamples.midpoint_list)
    Samples.fresh
  = Ok MoreSamples.midpoint_loaded
  /\ m_tolerance MoreSamples.midpoint_loaded == 0
  /\ m_marginalValue MoreSamples.midpoint_loaded = 127%Z
  /\ m_landValue MoreSamples.midpoint_loaded = 0%Z
  /\ m_waterValue MoreSamples.midpoint_loaded = 254%Z
  /\ Equation.evaluate "in[0]/(in[0]+in[1])" MoreSamples.midpoint_pixel
     = Some (8388609 / (8388609 + 8388607))
  /\ 8388609 / (8388609 + 8388607) == MoreSamples.midpoint_index
  /\ MoreSamples.midpoint_index == (1 # 2) + (1 # 16777216)
  /\ lo1 MoreSamples.midpoint_loaded < MoreSamples.midpoint_index
     < lo2 MoreSamples.midpoint_loaded
  /\ BandLut.maps_to
       (classifier_lut (H := referenceStrings) MoreSamples.midpoint_loaded)
       MoreSamples.midpoint_index
       (inject_Z (m_marginalValue MoreSamples.midpoint_loaded)).
Proof.
  split; [vm_compute; reflexivity|].
  split; [vm_compute; reflexivity|].
  split; [vm_compute; reflexivity|].
  split; [vm_compute; reflexivity|].
  split; [vm_compute; reflexivity|].
  split; [reflexivity|].
  split; [reflexivity|].
  split; [reflexivity|].
  split; [split; vm_compute; reflexivity|].
  eexists. split; vm_compute; reflexivity.
Qed.


Lemma C9_witness :
  Shoreline.execute (env := Samples.with_plugin false)
    Samples.ndwi_run Samples.nothing
  = Ok (true, Samples.ndwi_run,
        Samples.vector_written (Shoreline.potrace_kwl Samples.ndwi_run)
          (Samples.raster_written Samples.ndwi_run Samples.nothing)).
Proof.
  apply (C9_plugin_status_dropped (env := Samples.with_plugin false)
           Samples.ndwi_run Samples.ndwi_run Samples.nothing
           (Samples.raster_written Samples.ndwi_run Samples.nothing)
           (Samples.vector_written (Shoreline.potrace_kwl Samples.ndwi_run)
              (Samples.raster_written Samples.ndwi_run Samples.nothing))
           true (Samples.potrace false) false);
    reflexivity.
Defined.

Lemma C10_witness :
  exists inputs extra u',
    m_imgLayers Samples.ndwi_extra = inputs ++ extra
    /\ length inputs = 2%nat
    /\ extra <> []
    /\ Shoreline.initLandsat8 Samples.ndwi_extra
       = Ok (chain_add
               (EquationCombiner inputs OSSIM_FLOAT "in[0]/(in[0]+in[1])")
               Samples.ndwi_extra)
    /\ Shoreline.initProcessingChain (strOps := referenceStrings)
         Samples.ndwi_extra = Ok u'
    /\ m_procChain u'
       = [] ++ EquationCombiner inputs OSSIM_FLOAT "in[0]/(in[0]+in[1])"
            :: later_stages (H := referenceStrings) Samples.ndwi_extra.
Proof.
  apply (C10_extra_sources_ignored (strOps := referenceStrings)
           Samples.ndwi_extra).
  - cbn. lia.
  - reflexivity.
  - reflexivity.
  - reflexivity.
Defined.

End AtSamples.

(** * Further properties *)

(** ** More on configuration load *)

Section MoreConfigurationLoad.

Context {strOps : ossimStringOps} {env : ChipProcEnv}.

(** X1.  An algorithm name other than "ndwi" and "awei" makes [initialize]
    throw the bad-value exception of line 164, whatever else the keyword
    list holds; the base class is not reached. *)
Theorem X1_unknown_algorithm_rejected (kwl : KwlRef) (u : ossimShorelineUtil) :
  Kwl.findKey (deref kwl u) ALGORITHM_KW <> "" ->
  Kwl.findKey (deref kwl u) ALGORITHM_KW <> "ndwi" ->
  Kwl.findKey (deref kwl u) ALGORITHM_KW <> "awei" ->
  Shoreline.initialize kwl u = Throw (BadKeywordValue 164 ALGORITHM_KW)
  /\ errorKind (BadKeywordValue 164 ALGORITHM_KW) = InvalidConfiguration.
Proof.
  intros Hempty Hndwi Hawei. split; [|reflexivity].
  unfold Shoreline.initialize. cbv zeta. unfold empty.
  destruct (String.eqb_spec (Kwl.findKey (deref kwl u) ALGORITHM_KW) "");
    [contradiction|].
  destruct (String.eqb_spec (Kwl.findKey (deref kwl u) ALGORITHM_KW) "ndwi");
    [contradiction|].
  destruct (String.eqb_spec (Kwl.findKey (deref kwl u) ALGORITHM_KW) "awei");
    [contradiction|].
  reflexivity.
Qed.

(** X2.  With an accepted algorithm name, a colour coding that is not
    empty and does not split into exactly three values makes [initialize]
    throw the value-count exception of line 182. *)
Theorem X2_color_coding_arity (kwl : KwlRef) (u : ossimShorelineUtil) :
  algorithm_accepted (deref kwl u) ->
  Kwl.findKey (deref kwl u) COLOR_CODING_KW <> "" ->
  length (split (Kwl.findKey (deref kwl u) COLOR_CODING_KW) " ") <> 3%nat ->
  Shoreline.initialize kwl u
  = Throw (UnexpectedValueCount 182 COLOR_CODING_KW).
Proof.
  unfold algorithm_accepted. intros Halg Hvalue Hcount.
  unfold Shoreline.initialize. cbv zeta.
  set (k := deref kwl u) in *.
  assert (Halgorithm :
    exists a, (if negb (empty (Kwl.findKey k ALGORITHM_KW))
               then if (Kwl.findKey k ALGORITHM_KW =? "ndwi")%string
                    then Ok NDWI
                    else if (Kwl.findKey k ALGORITHM_KW =? "awei")%string
                         then Ok AWEI
                         else Throw (BadKeywordValue 164 ALGORITHM_KW)
               else Ok (m_algorithm u))
              = Ok a).
  { destruct Halg as [-> | [-> | ->]]; eexists; reflexivity. }
  destruct Halgorithm as [algorithm ->]. cbn [bind].
  unfold empty.
  destruct (String.eqb_spec (Kwl.findKey k COLOR_CODING_KW) "");
    [contradiction|]. cbn [negb].
  destruct (split _ _) as [|v0 [|v1 [|v2 [|]]]]; try reflexivity.
  now contradiction Hcount.
Qed.

(** What [initialize] hands to the base class once its two checks pass,
    member by member. *)
Lemma initialize_accepted (kwl : KwlRef) (u : ossimShorelineUtil) :
  algorithm_accepted (deref kwl u) ->
  color_coding_accepted (deref kwl u) ->
  let k := deref kwl u in
  let threshold := Kwl.findKey k THRESHOLD_KW in
  let tolerance := Kwl.findKey k TOLERANCE_KW in
  let smoothing := Kwl.findKey k SMOOTHING_KW in
  let sensor := Kwl.find k SENSOR_ID_KW in
  let output := Kwl.find k OUTPUT_FILE_KW in
  let edge := getBoolKeywordValue k (m_doEdgeDetect u) DO_EDGE_DETECT_KW in
  let product :=
    if edge then m_productFilename u
    else if (output =? DUMMY_OUTPUT_FILENAME)%string
         then appendTimestamp TEMP_RASTER_PRODUCT_FILENAME
         else setExtension output "tif" in
  exists algorithm water marginal land,
    Shoreline.initialize kwl u
    = chipProcInitialize kwl
        {| m_waterValue := water;
           m_marginalValue := marginal;
           m_landValue := land;
           m_sensor := if empty sensor then m_sensor u else sensor;
           m_threshold :=
             if empty threshold || (threshold =? "X")%string
             then m_threshold u else toDouble threshold;
           m_tolerance :=
             if empty tolerance then m_tolerance u else toDouble tolerance;
           m_algorithm := algorithm;
           m_skipThreshold :=
             if negb (empty threshold) && (threshold =? "X")%string
             then true else m_skipThreshold u;
           m_smoothing :=
             if empty smoothing then m_smoothing u else toDouble smoothing;
           m_doEdgeDetect := edge;
           m_vectorFilename :=
             if edge then m_vectorFilename u
             else if (output =? DUMMY_OUTPUT_FILENAME)%string
                  then "" else output;
           m_productFilename := product;
           m_kwl := if edge then k else Kwl.add OUTPUT_FILE_KW product k;
           m_imgLayers := m_imgLayers u;
           m_procChain := m_procChain u;
           m_geom := m_geom u;
           m_aoiViewRect := m_aoiViewRect u;
           m_aoiGroundRect := m_aoiGroundRect u;
           m_consoleStream := m_consoleStream u |}
    /\ (Kwl.findKey k ALGORITHM_KW = "" -> algorithm = m_algorithm u)
    /\ (Kwl.findKey k ALGORITHM_KW = "ndwi" -> algorithm = NDWI)
    /\ (Kwl.findKey k ALGORITHM_KW = "awei" -> algorithm = AWEI)
    /\ (Kwl.findKey k COLOR_CODING_KW = "" ->
        water = m_waterValue u /\ marginal = m_marginalValue u
        /\ land = m_landValue u).
Proof.
  unfold algorithm_accepted, color_coding_accepted.
  intros Halg Hcol. unfold Shoreline.initialize. cbv zeta in *.
  set (k := deref kwl u) in *.
  set (threshold := Kwl.findKey k THRESHOLD_KW).
  set (tolerance := Kwl.findKey k TOLERANCE_KW).
  set (smoothing := Kwl.findKey k SMOOTHING_KW).
  set (sensor := Kwl.find k SENSOR_ID_KW).
  assert (Hcolors :
    exists water marginal land,
      (if negb (empty (Kwl.findKey k COLOR_CODING_KW))
       then match split (Kwl.findKey k COLOR_CODING_KW) " " with
            | [v0; v1; v2] => Ok (toUInt8 v0, toUInt8 v1, toUInt8 v2)
            | _ => Throw (UnexpectedValueCount 182 COLOR_CODING_KW)
            end
       else Ok (m_waterValue u, m_marginalValue u, m_landValue u))
      = Ok (water, marginal, land)
      /\ (Kwl.findKey k COLOR_CODING_KW = "" ->
          water = m_waterValue u /\ marginal = m_marginalValue u
          /\ land = m_landValue u)).
  { destruct Hcol as [Hc | Hlen].
    - rewrite Hc. eexists _, _, _. split; [reflexivity|]. now intros _.
    - unfold empty.
      destruct (String.eqb_spec (Kwl.findKey k COLOR_CODING_KW) "") as [Hc|Hc].
      + eexists _, _, _. split; [reflexivity|]. now intros _.
      + cbn [negb].
        destruct (split _ _) as [|v0 [|v1 [|v2 [|]]]]; try discriminate.
        eexists _, _, _. split; [reflexivity|]. intros Habs. contradiction. }
  destruct Hcolors as [water [marginal [land [-> Hsame]]]].
  assert (Halgorithm :
    exists a, (if negb (empty (Kwl.findKey k ALGORITHM_KW))
               then if (Kwl.findKey k ALGORITHM_KW =? "ndwi")%string
                    then Ok NDWI
                    else if (Kwl.findKey k ALGORITHM_KW =? "awei")%string
                         then Ok AWEI
                         else Throw (BadKeywordValue 164 ALGORITHM_KW)
               else Ok (m_algorithm u))
              = Ok a
              /\ (Kwl.findKey k ALGORITHM_KW = "" -> a = m_algorithm u)
              /\ (Kwl.findKey k ALGORITHM_KW = "ndwi" -> a = NDWI)
              /\ (Kwl.findKey k ALGORITHM_KW = "awei" -> a = AWEI)).
  { destruct Halg as [Ha | [Ha | Ha]]; rewrite Ha; eexists;
      (split; [reflexivity|]); repeat split; intros; (reflexivity || discriminate). }
  destruct Halgorithm as [algorithm [-> Halgorithm]].
  exists algorithm, water, marginal, land.
  split; [|split; [apply Halgorithm|split; [apply Halgorithm|split;
    [apply Halgorithm|exact Hsame]]]].
  cbn [bind].
  destruct (getBoolKeywordValue k (m_doEdgeDetect u) DO_EDGE_DETECT_KW);
    cbn [negb];
    [|destruct (Kwl.find k OUTPUT_FILE_KW =? DUMMY_OUTPUT_FILENAME)%string];
    (destruct (empty threshold); cbn [negb orb andb];
     [|destruct (threshold =? "X")%string]);
    destruct (empty tolerance), (empty smoothing), (empty sensor);
    reflexivity.
Qed.

(** X3.  Keywords that are absent or empty change nothing: with none of
    the seven parameter keywords set, the object reaches the base class
    with its ten parameters, its layers, chain and geometry as they were. *)
Theorem X3_missing_keywords_keep_members
    (kwl : KwlRef) (u : ossimShorelineUtil) :
  Kwl.findKey (deref kwl u) ALGORITHM_KW = "" ->
  Kwl.findKey (deref kwl u) COLOR_CODING_KW = "" ->
  Kwl.find (deref kwl u) SENSOR_ID_KW = "" ->
  deref kwl u !! DO_EDGE_DETECT_KW = None ->
  Kwl.findKey (deref kwl u) SMOOTHING_KW = "" ->
  Kwl.findKey (deref kwl u) THRESHOLD_KW = "" ->
  Kwl.findKey (deref kwl u) TOLERANCE_KW = "" ->
  exists u',
    Shoreline.initialize kwl u = chipProcInitialize kwl u'
    /\ same_parameters u u'
    /\ m_imgLayers u' = m_imgLayers u
    /\ m_procChain u' = m_procChain u
    /\ m_geom u' = m_geom u.
Proof.
  intros Halg Hcol Hsensor Hedge Hsmooth Hthreshold Htolerance.
  destruct (initialize_accepted kwl u) as
    [algorithm [water [marginal [land [Hinit [Ha [_ [_ Hc]]]]]]]].
  { left. exact Halg. }
  { left. exact Hcol. }
  specialize (Ha Halg). destruct (Hc Hcol) as [Hw [Hm Hl]].
  eexists. split; [exact Hinit|].
  unfold same_parameters, getBoolKeywordValue. cbn.
  rewrite Hsensor, Hedge, Hsmooth, Hthreshold, Htolerance. cbn.
  repeat split; assumption.
Qed.

(** X4.  The threshold text "X" switches thresholding off and leaves the
    numeric threshold alone; no keyword list switches it back on: an object
    that skips thresholding still does so after any accepted list, and any
    other text leaves the switch as it was. *)
Theorem X4_skip_threshold_is_sticky (kwl : KwlRef) (u : ossimShorelineUtil) :
  algorithm_accepted (deref kwl u) ->
  color_coding_accepted (deref kwl u) ->
  exists u',
    Shoreline.initialize kwl u = chipProcInitialize kwl u'
    /\ (Kwl.findKey (deref kwl u) THRESHOLD_KW = "X" ->
        m_skipThreshold u' = true /\ m_threshold u' = m_threshold u)
    /\ (Kwl.findKey (deref kwl u) THRESHOLD_KW <> "X" ->
        m_skipThreshold u' = m_skipThreshold u)
    /\ (m_skipThreshold u = true -> m_skipThreshold u' = true).
Proof.
  intros Halg Hcol.
  destruct (initialize_accepted kwl u Halg Hcol) as
    [algorithm [water [marginal [land [Hinit _]]]]].
  eexists. split; [exact Hinit|]. cbn [m_skipThreshold m_threshold].
  split; [|split].
  - intros ->. split; reflexivity.
  - intros Hx.
    destruct (String.eqb_spec (Kwl.findKey (deref kwl u) THRESHOLD_KW) "X");
      [contradiction|].
    now rewrite andb_false_r.
  - intros ->. now destruct (_ && _).
Qed.

(** X5.  Out of edge-detect mode the output name of the keyword list is
    taken as the vector file and replaced, in the member list, by the
    raster product: the stand-in name gives no vector file and the
    time-stamped temporary raster, any other name gives itself and itself
    with extension "tif".  The other keys of the member list are those of
    the list read. *)
Theorem X5_output_file_becomes_raster (kwl : KwlRef) (u : ossimShorelineUtil) :
  algorithm_accepted (deref kwl u) ->
  color_coding_accepted (deref kwl u) ->
  getBoolKeywordValue (deref kwl u) (m_doEdgeDetect u) DO_EDGE_DETECT_KW
  = false ->
  exists u',
    Shoreline.initialize kwl u = chipProcInitialize kwl u'
    /\ m_kwl u' !! OUTPUT_FILE_KW = Some (m_productFilename u')
    /\ (forall key, key <> OUTPUT_FILE_KW ->
          m_kwl u' !! key = deref kwl u !! key)
    /\ (Kwl.find (deref kwl u) OUTPUT_FILE_KW = DUMMY_OUTPUT_FILENAME ->
        m_vectorFilename u' = ""
        /\ m_productFilename u'
           = appendTimestamp TEMP_RASTER_PRODUCT_FILENAME)
    /\ (Kwl.find (deref kwl u) OUTPUT_FILE_KW <> DUMMY_OUTPUT_FILENAME ->
        m_vectorFilename u' = Kwl.find (deref kwl u) OUTPUT_FILE_KW
        /\ m_productFilename u'
           = setExtension (Kwl.find (deref kwl u) OUTPUT_FILE_KW) "tif").
Proof.
  intros Halg Hcol Hedge.
  destruct (initialize_accepted kwl u Halg Hcol) as
    [algorithm [water [marginal [land [Hinit _]]]]].
  eexists. split; [exact Hinit|].
  cbn [m_kwl m_productFilename m_vectorFilename]. rewrite Hedge.
  split; [apply lookup_insert_eq|].
  split; [intros key Hkey; apply lookup_insert_ne; congruence|].
  split.
  - intros ->. split; reflexivity.
  - intros Hout.
    destruct (String.eqb_spec (Kwl.find (deref kwl u) OUTPUT_FILE_KW)
                DUMMY_OUTPUT_FILENAME); [contradiction|].
    split; reflexivity.
Qed.

(** X6.  In edge-detect mode the output name is left to the base class:
    the member list is the list read, and the vector and product file
    names are not touched. *)
Theorem X6_edge_mode_keeps_output (kwl : KwlRef) (u : ossimShorelineUtil) :
  algorithm_accepted (deref kwl u) ->
  color_coding_accepted (deref kwl u) ->
  getBoolKeywordValue (deref kwl u) (m_doEdgeDetect u) DO_EDGE_DETECT_KW
  = true ->
  exists u',
    Shoreline.initialize kwl u = chipProcInitialize kwl u'
    /\ m_doEdgeDetect u' = true
    /\ m_kwl u' = deref kwl u
    /\ m_vectorFilename u' = m_vectorFilename u
    /\ m_productFilename u' = m_productFilename u.
Proof.
  intros Halg Hcol Hedge.
  destruct (initialize_accepted kwl u Halg Hcol) as
    [algorithm [water [marginal [land [Hinit _]]]]].
  eexists. split; [exact Hinit|].
  cbn [m_kwl m_productFilename m_vectorFilename m_doEdgeDetect].
  rewrite Hedge. repeat split.
Qed.

End MoreConfigurationLoad.

(** ** More on chain construction *)

Section MoreChainConstruction.

Context {strOps : ossimStringOps}.

(** X7.  An area of interest with an undefined bound, on the ground or in
    the view, makes [initProcessingChain] throw the NaN exception of
    line 239 before the sensor and the layers are looked at. *)
Theorem X7_undefined_aoi_rejected (u : ossimShorelineUtil) :
  grect_hasNans (m_aoiGroundRect u) = true
  \/ irect_hasNans (m_aoiViewRect u) = true ->
  Shoreline.initProcessingChain u = Throw (NaNsInAoi 239)
  /\ errorKind (NaNsInAoi 239) = InvalidAOI.
Proof.
  intros Hnan. split; [|reflexivity].
  unfold Shoreline.initProcessingChain.
  destruct Hnan as [-> | ->]; [reflexivity|].
  now rewrite orb_true_r.
Qed.

(** X8.  With a defined area of interest, a sensor other than "ls8" makes
    [initProcessingChain] throw the unsupported-sensor exception of
    line 247, which carries the sensor's name, however many layers are
    loaded. *)
Theorem X8_unsupported_sensor_rejected (u : ossimShorelineUtil) :
  grect_hasNans (m_aoiGroundRect u) = false ->
  irect_hasNans (m_aoiViewRect u) = false ->
  m_sensor u <> "ls8" ->
  Shoreline.initProcessingChain u
  = Throw (SensorNotSupported 247 (m_sensor u))
  /\ errorKind (SensorNotSupported 247 (m_sensor u))
     = UnsupportedConfiguration.
Proof.
  intros Hg Hv Hsensor. split; [|reflexivity].
  unfold Shoreline.initProcessingChain. rewrite Hg, Hv.
  destruct (String.eqb_spec (m_sensor u) "ls8"); [contradiction|].
  reflexivity.
Qed.

(** X9.  A successful [initProcessingChain] changes the chain and nothing
    else, and it only appends: the object is the old one with a longer
    chain that starts with the old chain. *)
Theorem X9_construction_only_appends (u u' : ossimShorelineUtil) :
  Shoreline.initProcessingChain u = Ok u' ->
  u' = set_procChain (m_procChain u') u
  /\ exists added,
       m_procChain u' = m_procChain u ++ added /\ added <> [].
Proof.
  intros Hinit. split.
  - revert Hinit. unfold Shoreline.initProcessingChain.
    destruct (grect_hasNans _ || irect_hasNans _); [discriminate|].
    destruct (m_sensor u =? "ls8")%string; [|discriminate].
    destruct (Nat.lt_ge_cases (length (m_imgLayers u))
                (Shoreline.reqdNumInputs (m_algorithm u))) as [Hlt|Hge].
    + rewrite initLandsat8_short by exact Hlt. discriminate.
    + rewrite initLandsat8_enough by exact Hge.
      cbn [bind]. intros Heq. injection Heq as <-.
      cbn [m_skipThreshold chain_add].
      generalize (Shoreline.remapper_kwl
                    (chain_add
                       (EquationCombiner
                          (take (Shoreline.reqdNumInputs (m_algorithm u))
                             (m_imgLayers u))
                          OSSIM_FLOAT
                          (Shoreline.equationSpec (m_algorithm u))) u)).
      intros lut_kwl.
      destruct (m_skipThreshold u); cbn [negb m_smoothing chain_add];
        destruct (Qltb 0 (m_smoothing u)); cbn [m_doEdgeDetect chain_add];
        destruct (m_doEdgeDetect u); reflexivity.
  - apply initProcessingChain_chain in Hinit.
    eexists. split; [exact Hinit|]. discriminate.
Qed.

(** X10.  Each optional stage is added exactly when its switch is on, and
    once: the threshold classifier unless thresholding is skipped, the
    gaussian smoother when sigma is positive (a zero or negative sigma adds
    none), the edge filter in edge-detect mode; with the equation combiner
    these are all the stages added. *)
Theorem X10_optional_stages (u u' : ossimShorelineUtil) :
  Shoreline.initProcessingChain u = Ok u' ->
  exists added,
    m_procChain u' = m_procChain u ++ added
    /\ existsb is_classifier added = negb (m_skipThreshold u)
    /\ (existsb is_smoother added = true <-> (0 < m_smoothing u)%Q)
    /\ existsb is_edge_filter added = m_doEdgeDetect u
    /\ length (filter (fun s => is_combiner s) added) = 1%nat
    /\ length added
       = (1 + Nat.b2n (negb (m_skipThreshold u))
          + Nat.b2n (Qltb 0 (m_smoothing u))
          + Nat.b2n (m_doEdgeDetect u))%nat.
Proof.
  intros Hinit. apply initProcessingChain_chain in Hinit.
  eexists. split; [exact Hinit|]. unfold later_stages.
  generalize (Shoreline.remapper_kwl u). intros lut_kwl.
  assert (Hsigma : Qltb 0 (m_smoothing u) = true <-> (0 < m_smoothing u)%Q).
  { unfold Qltb. rewrite negb_true_iff.
    destruct (Qle_bool (m_smoothing u) 0) eqn:Hle.
    - apply Qle_bool_iff in Hle. split; [discriminate|lra].
    - split; [|reflexivity]. intros _.
      destruct (Qlt_le_dec 0 (m_smoothing u)) as [H|H]; [exact H|].
      apply Qle_bool_iff in H. congruence. }
  rewrite <- Hsigma.
  destruct (m_skipThreshold u), (Qltb 0 (m_smoothing u)), (m_doEdgeDetect u);
    cbn; repeat split; intros; congruence.
Qed.

(** X11.  The keyword list of the threshold filter always declares an
    [ossimBandLutFilter], enabled, interpolating, with byte output, whose
    first entry starts at "0.0"; it has four entries ending at "1.0" when
    the tolerance is zero and six entries ending at "1.0" otherwise. *)
Theorem X11_remapper_settings (u : ossimShorelineUtil) :
  Shoreline.remapper_kwl u !! "type" = Some "ossimBandLutFilter"
  /\ Shoreline.remapper_kwl u !! "enabled" = Some "1"
  /\ Shoreline.remapper_kwl u !! "scalar_type" = Some "U8"
  /\ Shoreline.remapper_kwl u !! "entry0.in" = Some "0.0"
  /\ (if Qeq_bool (m_tolerance u) 0
      then size (Shoreline.remapper_kwl u) = 12%nat
           /\ Shoreline.remapper_kwl u !! "entry3.in" = Some "1.0"
           /\ Shoreline.remapper_kwl u !! "entry4.in" = None
      else size (Shoreline.remapper_kwl u) = 16%nat
           /\ Shoreline.remapper_kwl u !! "entry5.in" = Some "1.0"
           /\ Shoreline.remapper_kwl u !! "entry6.in" = None).
Proof.
  unfold Shoreline.remapper_kwl.
  generalize (toStringF64 (m_threshold u - m_tolerance u)),
    (toStringF64 (m_threshold u - m_tolerance u + FLT_EPSILON)),
    (toStringF64 (m_threshold u + m_tolerance u)),
    (toStringF64 (m_threshold u + m_tolerance u + FLT_EPSILON)),
    (toStringU8 (m_landValue u)), (toStringU8 (m_marginalValue u)),
    (toStringU8 (m_waterValue u)).
  intros. destruct (Qeq_bool (m_tolerance u) 0);
    repeat split; vm_compute; reflexivity.
Qed.

(** X20.  The size check of [initLandsat8] is tight: it succeeds exactly
    when at least [reqdNumInputs] layers are loaded, so an empty layer list
    always fails; with exactly that many layers all of them are connected,
    in order. *)
Theorem X20_layer_count_boundary (u : ossimShorelineUtil) :
  ((exists u', Shoreline.initLandsat8 u = Ok u')
   <-> (Shoreline.reqdNumInputs (m_algorithm u) <= length (m_imgLayers u))%nat)
  /\ (m_imgLayers u = [] ->
      Shoreline.initLandsat8 u
      = Throw (TooFewInputImages 333
                 (Shoreline.reqdNumInputs (m_algorithm u)) 0))
  /\ (length (m_imgLayers u) = Shoreline.reqdNumInputs (m_algorithm u) ->
      Shoreline.initLandsat8 u
      = Ok (chain_add
              (EquationCombiner (m_imgLayers u) OSSIM_FLOAT
                 (Shoreline.equationSpec (m_algorithm u))) u)).
Proof.
  split; [|split].
  - split.
    + intros [u' Hok].
      destruct (Nat.lt_ge_cases (length (m_imgLayers u))
                  (Shoreline.reqdNumInputs (m_algorithm u))) as [Hlt|Hge];
        [|exact Hge].
      rewrite initLandsat8_short in Hok by exact Hlt. discriminate.
    + intros Hge. eexists. now apply initLandsat8_enough.
  - intros Hnil. rewrite initLandsat8_short; rewrite Hnil; cbn [length].
    + reflexivity.
    + destruct (m_algorithm u); cbn; lia.
  - intros Hlen. rewrite initLandsat8_enough by lia.
    rewrite <- Hlen. now rewrite firstn_all.
Qed.

(** X21.  [initProcessingChain] succeeds exactly when the area of interest
    is defined, the sensor is "ls8" and enough layers are loaded; the
    colour codes, threshold, tolerance, sigma and edge switch have no say
    in it. *)
Theorem X21_construction_precondition (u : ossimShorelineUtil) :
  (exists u', Shoreline.initProcessingChain u = Ok u')
  <-> grect_hasNans (m_aoiGroundRect u) = false
      /\ irect_hasNans (m_aoiViewRect u) = false
      /\ m_sensor u = "ls8"
      /\ (Shoreline.reqdNumInputs (m_algorithm u)
          <= length (m_imgLayers u))%nat.
Proof.
  split.
  - intros [u' Hok]. revert Hok. unfold Shoreline.initProcessingChain.
    destruct (grect_hasNans _) eqn:Hg; [discriminate|].
    destruct (irect_hasNans _) eqn:Hv; [discriminate|]. cbn [orb].
    destruct (String.eqb_spec (m_sensor u) "ls8") as [Hs|Hs]; [|discriminate].
    destruct (Nat.lt_ge_cases (length (m_imgLayers u))
                (Shoreline.reqdNumInputs (m_algorithm u))) as [Hlt|Hge].
    + rewrite initLandsat8_short by exact Hlt. discriminate.
    + intros _. repeat split; assumption.
  - intros [Hg [Hv [Hs Hn]]]. unfold Shoreline.initProcessingChain.
    rewrite Hg, Hv, Hs, initLandsat8_enough by exact Hn.
    cbn [orb bind String.eqb Ascii.eqb Bool.eqb].
    eexists. reflexivity.
Qed.

End MoreChainConstruction.

(** ** More on the classifier's table *)

Section MoreClassifier.

Context {strOps : ossimStringOps}.

Local Open Scope Q_scope.

Lemma inputs_ascend_same_table (t1 t2 : list (Q * Q)) :
  same_table t1 t2 -> inputs_ascend t1 <-> inputs_ascend t2.
Proof.
  intros Hsame. induction Hsame as [|p p' l1 l2 [Hx _] Htl IH]; [reflexivity|].
  destruct Htl as [|q q' l1 l2 [Hx' Hy'] Htl]; [reflexivity|].
  cbn [inputs_ascend] in *. rewrite IH, Hx, Hx'. reflexivity.
Qed.

(** X12.  The control points of the threshold filter are in ascending
    order of input exactly when the breakpoints fit between the fixed ends
    0.0 and 1.0 without crossing: lo1 is not negative and, for a zero
    tolerance, lo2 is at most 1; for any other tolerance, lo2 is at most
    hi1 and hi2 at most 1.  Nothing in the code keeps a configuration from
    falling outside. *)
Theorem X12_breakpoints_in_order (u : ossimShorelineUtil) :
  prints_exactly u ->
  inputs_ascend (classifier_lut u)
  <-> 0 <= lo1 u
      /\ (if Qeq_bool (m_tolerance u) 0
          then lo2 u <= 1
          else lo2 u <= hi1 u /\ hi2 u <= 1).
Proof.
  intros Hprint. destruct (Qeq_bool (m_tolerance u) 0) eqn:Hz.
  - rewrite (inputs_ascend_same_table _ _
               (classifier_same_collapsed u Hprint Hz)).
    unfold spec_table_collapsed, collapsed_table. cbn [inputs_ascend fst].
    unfold lo2, FLT_EPSILON. split.
    + intros [H0 [_ [H1 _]]]. split; assumption.
    + intros [H0 H1]. repeat split; try assumption. lra.
  - rewrite (inputs_ascend_same_table _ _
               (classifier_same_banded u Hprint Hz)).
    unfold spec_table_banded, banded_table. cbn [inputs_ascend fst].
    unfold hi2, lo2, FLT_EPSILON. split.
    + intros [H0 [_ [H1 [_ [H2 _]]]]]. repeat split; assumption.
    + intros [H0 [H1 H2]]. repeat split; try assumption; lra.
Qed.

End MoreClassifier.

(** ** More on chip requests and execution *)

Section MoreRequests.

Context {env : ChipProcEnv}.

(** X13.  Without a geometry [getChip] returns no tile and leaves the
    object as it is.  With one, the tile is the chain's tile for the
    region at full resolution under the geometry resized to the region;
    the object's view rectangle becomes the region and its ground rectangle
    the region's image under that geometry, while the parameters, the
    layers and the chain stay as they were. *)
Theorem X13_getChip_effects (r : ossimIrect) (u : ossimShorelineUtil) :
  (m_geom u = None -> Shoreline.getChip r u = (None, u))
  /\ (forall g, m_geom u = Some g ->
        let g' := setImageSize (irect_size r) g in
        let u' := snd (Shoreline.getChip r u) in
        fst (Shoreline.getChip r u) = chainGetTile (m_procChain u) g' r 0
        /\ m_geom u' = Some g'
        /\ geom_projection g' = geom_projection g
        /\ m_aoiViewRect u' = r
        /\ m_aoiGroundRect u' = localToWorld g' r
        /\ same_parameters u u'
        /\ m_imgLayers u' = m_imgLayers u
        /\ m_procChain u' = m_procChain u
        /\ m_kwl u' = m_kwl u).
Proof.
  split.
  - intros Hg. unfold Shoreline.getChip. now rewrite Hg.
  - intros g Hg. unfold Shoreline.getChip. rewrite Hg. cbn.
    unfold same_parameters. cbn. repeat split.
Qed.

End MoreRequests.

Section MoreExecution.

Context {env : ChipProcEnv}.

(** X14.  In edge-detect mode [execute] is the base class's [execute]:
    same flag, object and world, no notification, and the registry is not
    asked for the plugin. *)
Theorem X14_edge_mode_skips_vectorization
    (u u1 : ossimShorelineUtil) (w w1 : World) (status : bool) :
  chipProcExecute u w = Ok (status, u1, w1) ->
  m_doEdgeDetect u1 = true ->
  Shoreline.execute u w = Ok (status, u1, w1).
Proof.
  intros Hbase Hedge. unfold Shoreline.execute.
  rewrite Hbase. cbn [bind]. now rewrite Hedge.
Qed.

(** X15.  Exceptions pass through [execute] unchanged: one from the base
    class before anything else is done, and, out of edge-detect mode with
    the plugin present, one from the plugin's [initialize] or [execute]
    even though the base class had finished and reported its status. *)
Theorem X15_exceptions_pass_through
    (u : ossimShorelineUtil) (w : World) (e : ossimException) :
  chipProcExecute u w = Throw e
  \/ (exists status u1 w1 potrace,
        chipProcExecute u w = Ok (status, u1, w1)
        /\ m_doEdgeDetect u1 = false
        /\ createUtility "potrace" = Some potrace
        /\ (util_initialize potrace (Shoreline.potrace_kwl u1) = Throw e
            \/ (util_initialize potrace (Shoreline.potrace_kwl u1) = Ok tt
                /\ util_execute potrace (m_consoleStream u1)
                     (Shoreline.potrace_kwl u1) w1 = Throw e))) ->
  Shoreline.execute u w = Throw e.
Proof.
  intros [Hbase | [status [u1 [w1 [potrace [Hbase [Hedge [Hsome Hthrow]]]]]]]].
  - unfold Shoreline.execute. now rewrite Hbase.
  - unfold Shoreline.execute. rewrite Hbase. cbn [bind].
    rewrite Hedge, Hsome. cbn [negb].
    destruct Hthrow as [-> | [-> ->]]; reflexivity.
Qed.

End MoreExecution.

(** ** The command line *)

Section CommandLineProperties.

Context {ap : ArgumentParserEnv}.

Lemma read_pair_other (flag key other : string)
    (st : list string * gmap string string) :
  other <> key ->
  snd (CommandLine.read_pair flag key st) !! other = snd st !! other.
Proof.
  intros Hne. unfold CommandLine.read_pair.
  destruct (ap_read1 flag (fst st)) as [[ts1 args]|]; [|reflexivity].
  cbn [snd]. apply lookup_insert_ne. congruence.
Qed.

Lemma read_color_coding_other (other : string)
    (st : list string * gmap string string) :
  other <> COLOR_CODING_KW ->
  snd (CommandLine.read_color_coding st) !! other = snd st !! other.
Proof.
  intros Hne. unfold CommandLine.read_color_coding.
  destruct (ap_read3 _ (fst st)) as [[[[ts1 ts2] ts3] args]|]; [|reflexivity].
  cbn [snd]. apply lookup_insert_ne. congruence.
Qed.

Lemma read_edge_other (other : string)
    (st : list string * gmap string string) :
  other <> DO_EDGE_DETECT_KW ->
  snd (CommandLine.read_edge st) !! other = snd st !! other.
Proof.
  intros Hne. unfold CommandLine.read_edge.
  destruct (ap_read0 _ (fst st)) as [args|]; [|reflexivity].
  cbn [snd]. apply lookup_insert_ne. congruence.
Qed.

(** The keys outside [option_keys] come through [read_options] untouched,
    and the output name ends up as the stand-in. *)
Lemma read_options_keys (st : list string * gmap string string) :
  snd (CommandLine.read_options st) !! OUTPUT_FILE_KW
  = Some DUMMY_OUTPUT_FILENAME
  /\ forall key, ~ In key option_keys ->
       snd (CommandLine.read_options st) !! key = snd st !! key.
Proof.
  unfold CommandLine.read_options, Kwl.add. cbn [snd]. split.
  - apply lookup_insert_eq.
  - intros key Hkey.
    assert (Hne : forall k, In k option_keys -> key <> k)
      by (intros k Hin ->; contradiction).
    rewrite lookup_insert_ne
      by (apply not_eq_sym, Hne; cbn; auto 12).
    rewrite !read_pair_other by (apply Hne; cbn; auto 12).
    rewrite read_edge_other by (apply Hne; cbn; auto 12).
    rewrite read_color_coding_other by (apply Hne; cbn; auto 12).
    rewrite read_pair_other by (apply Hne; cbn; auto 12).
    reflexivity.
Qed.

(** X16.  The flag [initialize] returns is the base class's flag: when
    the base class declines the command line the result is false with the
    arguments and the object as the base class left them (no option is
    read, nothing is added to the member list), and whenever [initialize]
    returns at all, it returns what the base class returned. *)
Theorem X16_flag_is_base_flag
    (args args0 : list string) (u u0 : ossimShorelineUtil) (ok : bool) :
  chipProcInitializeArgs args u = Ok (ok, args0, u0) ->
  (ok = false -> CommandLine.initialize args u = Ok (false, args0, u0))
  /\ (forall flag args' u',
        CommandLine.initialize args u = Ok (flag, args', u') -> flag = ok).
Proof.
  intros Hbase. unfold CommandLine.initialize. rewrite Hbase. cbn [bind].
  split.
  - intros ->. reflexivity.
  - intros flag args' u'. destruct ok; cbn [negb].
    + destruct (CommandLine.read_options (args0, m_kwl u0)) as [args1 kwl1].
      destruct (processRemainingArgs args1 (set_kwl kwl1 u0)) as [[a u2]|e];
        cbn [bind]; [|discriminate].
      intros Heq. now injection Heq as <- _ _.
    + intros Heq. now injection Heq as <- _ _.
Qed.

(** X17.  When the base class accepts, the object passed on to
    [processRemainingArgs] differs from the one the base class left in its
    member list only: there the output name is the stand-in
    "@@NEVER_USE_THIS@@", whatever was given before, and every key other
    than the seven option keys and the output name is as it was.  The
    parameters of the classifier are not set from the command line here. *)
Theorem X17_options_go_to_member_list
    (args args0 : list string) (u u0 : ossimShorelineUtil) :
  chipProcInitializeArgs args u = Ok (true, args0, u0) ->
  exists args1 kwl1,
    CommandLine.read_options (args0, m_kwl u0) = (args1, kwl1)
    /\ CommandLine.initialize args u
       = (try! rest := processRemainingArgs args1 (set_kwl kwl1 u0) in
          Ok (true, fst rest, snd rest))
    /\ kwl1 !! OUTPUT_FILE_KW = Some DUMMY_OUTPUT_FILENAME
    /\ (forall key, ~ In key option_keys -> kwl1 !! key = m_kwl u0 !! key)
    /\ same_parameters u0 (set_kwl kwl1 u0)
    /\ set_kwl (m_kwl u0) (set_kwl kwl1 u0) = set_kwl (m_kwl u0) u0.
Proof.
  intros Hbase.
  destruct (CommandLine.read_options (args0, m_kwl u0)) as [args1 kwl1] eqn:Hread.
  exists args1, kwl1. split; [reflexivity|].
  pose proof (read_options_keys (args0, m_kwl u0)) as [Hout Hkeys].
  rewrite Hread in Hout, Hkeys. cbn [snd] in Hout, Hkeys.
  split; [|split; [exact Hout|split; [exact Hkeys|split]]].
  - unfold CommandLine.initialize. rewrite Hbase. cbn [bind negb].
    rewrite Hread.
    destruct (processRemainingArgs args1 (set_kwl kwl1 u0)) as [[a u2]|e];
      reflexivity.
  - unfold same_parameters. cbn. repeat split.
  - reflexivity.
Qed.


End CommandLineProperties.

(** ** From the keyword list to the chain *)

Section ListToChain.

Context {strOps : ossimStringOps} {env : ChipProcEnv}.

(** X19.  The threshold text "X" removes the classifier from the chain:
    the object [initialize] hands to the base class skips thresholding, and
    whatever object with these parameters [initProcessingChain] is then run
    on, none of the stages it adds is a band LUT filter. *)
Theorem X19_skip_keyword_drops_classifier
    (kwl : KwlRef) (u : ossimShorelineUtil) :
  algorithm_accepted (deref kwl u) ->
  color_coding_accepted (deref kwl u) ->
  Kwl.findKey (deref kwl u) THRESHOLD_KW = "X" ->
  exists u1,
    Shoreline.initialize kwl u = chipProcInitialize kwl u1
    /\ forall u2 u3,
         same_parameters u1 u2 ->
         Shoreline.initProcessingChain u2 = Ok u3 ->
         exists added,
           m_procChain u3 = m_procChain u2 ++ added
           /\ existsb is_classifier added = false.
Proof.
  intros Halg Hcol Hx.
  destruct (initialize_accepted kwl u Halg Hcol) as
    [algorithm [water [marginal [land [Hinit _]]]]].
  eexists. split; [exact Hinit|].
  intros u2 u3 [_ [_ [_ [_ [_ [_ [_ [Hskip _]]]]]]]] Hchain.
  cbn [m_skipThreshold] in Hskip. rewrite Hx in Hskip. cbn in Hskip.
  apply initProcessingChain_chain in Hchain.
  eexists. split; [exact Hchain|].
  unfold later_stages. rewrite Hskip.
  destruct (Qltb 0 (m_smoothing u2)), (m_doEdgeDetect u2); reflexivity.
Qed.

End ListToChain.

(** ** The further properties at sample inputs *)

Section MoreAtSamples.

Local Open Scope Q_scope.

Lemma X1_witness :
  Shoreline.initialize (strOps := referenceStrings)
    (env := Samples.standalone) (OtherKwl MoreSamples.upper_case_algorithm)
    Samples.fresh
  = Throw (BadKeywordValue 164 ALGORITHM_KW)
  /\ errorKind (BadKeywordValue 164 ALGORITHM_KW) = InvalidConfiguration.
Proof.
  apply (X1_unknown_algorithm_rejected (strOps := referenceStrings)
           (env := Samples.standalone)
           (OtherKwl MoreSamples.upper_case_algorithm) Samples.fresh);
    vm_compute; discriminate.
Defined.

Lemma X2_witness :
  Shoreline.initialize (strOps := referenceStrings)
    (env := Samples.standalone) (OtherKwl MoreSamples.two_colors)
    Samples.fresh
  = Throw (UnexpectedValueCount 182 COLOR_CODING_KW).
Proof.
  apply (X2_color_coding_arity (strOps := referenceStrings)
           (env := Samples.standalone)
           (OtherKwl MoreSamples.two_colors) Samples.fresh).
  - left. vm_compute. reflexivity.
  - vm_compute. discriminate.
  - vm_compute. discriminate.
Defined.

Lemma X3_witness :
  exists u',
    Shoreline.initialize (strOps := referenceStrings)
      (env := Samples.standalone) (OtherKwl ∅) Samples.fresh
    = chipProcInitialize (ChipProcEnv := Samples.standalone) (OtherKwl ∅) u'
    /\ same_parameters Samples.fresh u'
    /\ m_imgLayers u' = m_imgLayers Samples.fresh
    /\ m_procChain u' = m_procChain Samples.fresh
    /\ m_geom u' = m_geom Samples.fresh.
Proof.
  apply (X3_missing_keywords_keep_members (strOps := referenceStrings)
           (env := Samples.standalone) (OtherKwl ∅) Samples.fresh);
    vm_compute; reflexivity.
Defined.

Lemma X4_witness :
  exists u',
    Shoreline.initialize (strOps := referenceStrings)
      (env := Samples.standalone) (OtherKwl MoreSamples.skip_list)
      Samples.fresh
    = chipProcInitialize (ChipProcEnv := Samples.standalone)
        (OtherKwl MoreSamples.skip_list) u'
    /\ m_skipThreshold u' = true
    /\ m_threshold u' = m_threshold Samples.fresh.
Proof.
  destruct (X4_skip_threshold_is_sticky (strOps := referenceStrings)
              (env := Samples.standalone)
              (OtherKwl MoreSamples.skip_list) Samples.fresh)
    as [u' [Hinit [Hx _]]].
  - left. vm_compute. reflexivity.
  - left. vm_compute. reflexivity.
  - exists u'. split; [exact Hinit|]. apply Hx. vm_compute. reflexivity.
Defined.

Lemma X5_witness :
  exists u',
    Shoreline.initialize (strOps := referenceStrings)
      (env := Samples.standalone) (OtherKwl MoreSamples.named_output)
      Samples.fresh
    = chipProcInitialize (ChipProcEnv := Samples.standalone)
        (OtherKwl MoreSamples.named_output) u'
    /\ m_kwl u' !! OUTPUT_FILE_KW = Some (m_productFilename u')
    /\ m_vectorFilename u' = "coast.json"
    /\ m_productFilename u' = "coast.tif".
Proof.
  destruct (X5_output_file_becomes_raster (strOps := referenceStrings)
              (env := Samples.standalone)
              (OtherKwl MoreSamples.named_output) Samples.fresh)
    as [u' [Hinit [Hkwl [_ [_ Hnamed]]]]].
  - left. vm_compute. reflexivity.
  - left. vm_compute. reflexivity.
  - vm_compute. reflexivity.
  - exists u'. split; [exact Hinit|]. split; [exact Hkwl|].
    apply Hnamed. vm_compute. discriminate.
Defined.

Lemma X6_witness :
  exists u',
    Shoreline.initialize (strOps := referenceStrings)
      (env := Samples.standalone) (OtherKwl MoreSamples.edge_list)
      Samples.fresh
    = chipProcInitialize (ChipProcEnv := Samples.standalone)
        (OtherKwl MoreSamples.edge_list) u'
    /\ m_doEdgeDetect u' = true
    /\ m_kwl u' = MoreSamples.edge_list
    /\ m_vectorFilename u' = m_vectorFilename Samples.fresh
    /\ m_productFilename u' = m_productFilename Samples.fresh.
Proof.
  apply (X6_edge_mode_keeps_output (strOps := referenceStrings)
           (env := Samples.standalone)
           (OtherKwl MoreSamples.edge_list) Samples.fresh).
  - left. vm_compute. reflexivity.
  - left. vm_compute. reflexivity.
  - vm_compute. reflexivity.
Defined.

Lemma X7_witness :
  Shoreline.initProcessingChain (strOps := referenceStrings) Samples.fresh
  = Throw (NaNsInAoi 239)
  /\ errorKind (NaNsInAoi 239) = InvalidAOI.
Proof.
  apply (X7_undefined_aoi_rejected (strOps := referenceStrings) Samples.fresh).
  left. reflexivity.
Defined.

Lemma X8_witness :
  Shoreline.initProcessingChain (strOps := referenceStrings)
    MoreSamples.ls7_run
  = Throw (SensorNotSupported 247 "ls7")
  /\ errorKind (SensorNotSupported 247 "ls7") = UnsupportedConfiguration.
Proof.
  apply (X8_unsupported_sensor_rejected (strOps := referenceStrings)
           MoreSamples.ls7_run).
  - reflexivity.
  - reflexivity.
  - vm_compute. discriminate.
Defined.

Lemma X9_witness :
  Samples.ndwi_built
  = set_procChain (m_procChain Samples.ndwi_built) Samples.ndwi_run
  /\ exists added,
       m_procChain Samples.ndwi_built
       = m_procChain Samples.ndwi_run ++ added /\ added <> [].
Proof.
  apply (X9_construction_only_appends (strOps := referenceStrings)
           Samples.ndwi_run Samples.ndwi_built).
  vm_compute. reflexivity.
Defined.

Lemma X10_witness :
  exists added,
    m_procChain Samples.ndwi_built = m_procChain Samples.ndwi_run ++ added
    /\ existsb is_classifier added = negb (m_skipThreshold Samples.ndwi_run)
    /\ (existsb is_smoother added = true
        <-> 0 < m_smoothing Samples.ndwi_run)
    /\ existsb is_edge_filter added = m_doEdgeDetect Samples.ndwi_run
    /\ length (filter (fun s => is_combiner s) added) = 1%nat
    /\ length added
       = (1 + Nat.b2n (negb (m_skipThreshold Samples.ndwi_run))
          + Nat.b2n (Qltb 0 (m_smoothing Samples.ndwi_run))
          + Nat.b2n (m_doEdgeDetect Samples.ndwi_run))%nat.
Proof.
  apply (X10_optional_stages (strOps := referenceStrings)
           Samples.ndwi_run Samples.ndwi_built).
  vm_compute. reflexivity.
Defined.

Lemma X12_witness :
  prints_exactly (H := referenceStrings) Samples.ndwi_run
  /\ inputs_ascend (classifier_lut (H := referenceStrings) Samples.ndwi_run).
Proof.
  assert (Hprint : prints_exactly (H := referenceStrings) Samples.ndwi_run)
    by (constructor; vm_compute; reflexivity).
  split; [exact Hprint|].
  apply (X12_breakpoints_in_order (strOps := referenceStrings)
           Samples.ndwi_run Hprint).
  split; [unfold lo1; cbn; lra|].
  change (Qeq_bool (m_tolerance Samples.ndwi_run) 0) with false.
  unfold hi2, hi1, lo2, lo1, FLT_EPSILON. cbn. split; lra.
Defined.

Lemma X13_witness :
  fst (Shoreline.getChip (env := Samples.standalone)
         MoreSamples.small_tile Samples.ndwi_run)
  = chainGetTile (ChipProcEnv := Samples.standalone)
      (m_procChain Samples.ndwi_run)
      (setImageSize (8, 16)%Z MoreSamples.geometry)
      MoreSamples.small_tile 0
  /\ m_geom (snd (Shoreline.getChip (env := Samples.standalone)
                    MoreSamples.small_tile Samples.ndwi_run))
     = Some (setImageSize (8, 16)%Z MoreSamples.geometry)
  /\ m_aoiViewRect (snd (Shoreline.getChip (env := Samples.standalone)
                           MoreSamples.small_tile Samples.ndwi_run))
     = MoreSamples.small_tile.
Proof.
  destruct (proj2 (X13_getChip_effects (env := Samples.standalone)
                     MoreSamples.small_tile Samples.ndwi_run)
              MoreSamples.geometry eq_refl)
    as [Htile [Hgeom [_ [Hview _]]]].
  split; [exact Htile|]. split; [exact Hgeom|exact Hview].
Defined.

Lemma X14_witness :
  Shoreline.execute (env := Samples.standalone) Samples.edge_run
    Samples.nothing
  = Ok (true, Samples.edge_run,
        Samples.raster_written Samples.edge_run Samples.nothing).
Proof.
  apply (X14_edge_mode_skips_vectorization (env := Samples.standalone)
           Samples.edge_run Samples.edge_run Samples.nothing
           (Samples.raster_written Samples.edge_run Samples.nothing) true);
    reflexivity.
Defined.

Lemma X15_witness :
  Shoreline.execute (env := MoreSamples.with_failing_plugin)
    Samples.ndwi_run Samples.nothing
  = Throw (BaseException "potrace").
Proof.
  apply (X15_exceptions_pass_through (env := MoreSamples.with_failing_plugin)
           Samples.ndwi_run Samples.nothing (BaseException "potrace")).
  right.
  exists true, Samples.ndwi_run,
    (Samples.raster_written Samples.ndwi_run Samples.nothing),
    MoreSamples.failing_potrace.
  split; [reflexivity|]. split; [reflexivity|]. split; [reflexivity|].
  left. reflexivity.
Defined.

Lemma X16_witness :
  CommandLine.initialize (ap := CommandLineSamples.declining)
    CommandLineSamples.command_line Samples.fresh
  = Ok (false, CommandLineSamples.command_line, Samples.fresh).
Proof.
  apply (proj1 (X16_flag_is_base_flag (ap := CommandLineSamples.declining)
                  CommandLineSamples.command_line
                  CommandLineSamples.command_line
                  Samples.fresh Samples.fresh false eq_refl)).
  reflexivity.
Defined.

Lemma X17_witness :
  exists args1 kwl1,
    CommandLine.read_options (ap := CommandLineSamples.parser)
      (CommandLineSamples.command_line, m_kwl Samples.fresh)
    = (args1, kwl1)
    /\ CommandLine.initialize (ap := CommandLineSamples.parser)
         CommandLineSamples.command_line Samples.fresh
       = (try! rest :=
            processRemainingArgs (ArgumentParserEnv := CommandLineSamples.parser)
              args1 (set_kwl kwl1 Samples.fresh) in
          Ok (true, fst rest, snd rest))
    /\ kwl1 !! OUTPUT_FILE_KW = Some DUMMY_OUTPUT_FILENAME
    /\ (forall key, ~ In key option_keys ->
          kwl1 !! key = m_kwl Samples.fresh !! key)
    /\ same_parameters Samples.fresh (set_kwl kwl1 Samples.fresh)
    /\ set_kwl (m_kwl Samples.fresh) (set_kwl kwl1 Samples.fresh)
       = set_kwl (m_kwl Samples.fresh) Samples.fresh.
Proof.
  apply (X17_options_go_to_member_list (ap := CommandLineSamples.parser)
           CommandLineSamples.command_line CommandLineSamples.command_line
           Samples.fresh Samples.fresh).
  reflexivity.
Defined.


Lemma X19_witness :
  exists u1,
    Shoreline.initialize (strOps := referenceStrings)
      (env := Samples.standalone) (OtherKwl MoreSamples.skip_list)
      Samples.fresh
    = chipProcInitialize (ChipProcEnv := Samples.standalone)
        (OtherKwl MoreSamples.skip_list) u1
    /\ forall u2 u3,
         same_parameters u1 u2 ->
         Shoreline.initProcessingChain (strOps := referenceStrings) u2 = Ok u3 ->
         exists added,
           m_procChain u3 = m_procChain u2 ++ added
           /\ existsb is_classifier added = false.
Proof.
  apply (X19_skip_keyword_drops_classifier (strOps := referenceStrings)
           (env := Samples.standalone)
           (OtherKwl MoreSamples.skip_list) Samples.fresh).
  - left. vm_compute. reflexivity.
  - left. vm_compute. reflexivity.
  - vm_compute. reflexivity.
Defined.

Lemma X20_witness :
  Shoreline.initLandsat8 Samples.awei_run
  = Ok (chain_add
          (EquationCombiner (m_imgLayers Samples.awei_run) OSSIM_FLOAT
             (Shoreline.equationSpec (m_algorithm Samples.awei_run)))
          Samples.awei_run)
  /\ Shoreline.initLandsat8 Samples.fresh
     = Throw (TooFewInputImages 333 2 0)
  /\ ~ (exists u', Shoreline.initLandsat8 Samples.awei_short = Ok u').
Proof.
  split; [|split].
  - apply (proj2 (proj2 (X20_layer_count_boundary Samples.awei_run))).
    reflexivity.
  - apply (proj1 (proj2 (X20_layer_count_boundary Samples.fresh))).
    reflexivity.
  - intros Hok.
    apply (proj1 (X20_layer_count_boundary Samples.awei_short)) in Hok.
    cbn in Hok. lia.
Defined.

Lemma X21_witness :
  (exists u',
      Shoreline.initProcessingChain (strOps := referenceStrings)
        Samples.ndwi_run = Ok u')
  /\ ~ (exists u',
          Shoreline.initProcessingChain (strOps := referenceStrings)
            MoreSamples.ls7_run = Ok u').
Proof.
  split.
  - apply (proj2 (X21_construction_precondition (strOps := referenceStrings)
                    Samples.ndwi_run)).
    split; [reflexivity|]. split; [reflexivity|]. split; [reflexivity|].
    cbn. lia.
  - intros Hok.
    apply (proj1 (X21_construction_precondition (strOps := referenceStrings)
                    MoreSamples.ls7_run)) in Hok.
    destruct Hok as [_ [_ [Hsensor _]]]. discriminate Hsensor.
Defined.

End MoreAtSamples.
